(** * liuyao_bot: the Telegram divination bot of [liuyao.py]

    A shallow embedding of the three handlers of [liuyao.py] ([start],
    [handle_message], [profile]) and of [initialize_user_data], together
    with the properties of the quota gate and of the streaming/buffering
    policy.

    Python values are modelled as follows.
    - A [str] is a list of Unicode code points ([pystr]); [len] is the length
      of that list, so the threshold of 30 counts characters, not bytes.
    - [context.user_data] is a record of optional fields (an absent key is
      [None]; reading an absent key with [d[k]] raises [KeyError]).
    - The collaborators that are not part of the repository (the backend
      client, the chat-completion stream and the bot transport) are a
      [world]: it fixes what every call returns and which calls raise.
    - A handler is a computation over the session context and the trace of
      the calls it has issued; an exception keeps both.

    [suangua] is not registered as a handler and is called by none; it is
    modelled apart, with the console output it produces.  The routing of
    updates to the three registered handlers is the framework's; a session
    is modelled as the sequence of handler runs it causes. *)

From Stdlib Require Import String Ascii.
From Stdlib Require Import List Bool Arith NArith ZArith Lia.
Import ListNotations.

Set Implicit Arguments.

(** ** Python strings *)

Module Py.

Definition pystr := list N.

(** Code points of a UTF-8 encoded literal. *)
Fixpoint utf8 (bs : list N) : pystr :=
  match bs with
  | [] => []
  | b :: r =>
      if (b <? 128)%N then b :: utf8 r
      else if (b <? 224)%N then
        match r with
        | b1 :: r1 => ((b - 192) * 64 + (b1 - 128))%N :: utf8 r1
        | _ => []
        end
      else if (b <? 240)%N then
        match r with
        | b1 :: b2 :: r2 =>
            ((b - 224) * 4096 + (b1 - 128) * 64 + (b2 - 128))%N :: utf8 r2
        | _ => []
        end
      else
        match r with
        | b1 :: b2 :: b3 :: r3 =>
            ((b - 240) * 262144 + (b1 - 128) * 4096
             + (b2 - 128) * 64 + (b3 - 128))%N :: utf8 r3
        | _ => []
        end
  end.

Definition lit (s : string) : pystr :=
  utf8 (map N_of_ascii (list_ascii_of_string s)).

Definition pystr_eqb (a b : pystr) : bool :=
  if list_eq_dec N.eq_dec a b then true else false.

(** [s.startswith(p)] *)
Fixpoint startswith (p s : pystr) : bool :=
  match p, s with
  | [], _ => true
  | _ :: _, [] => false
  | a :: p', b :: s' => (a =? b)%N && startswith p' s'
  end.

(** [s.endswith(p)] *)
Definition endswith (p s : pystr) : bool := startswith (rev p) (rev s).

(** [sub in s] *)
Fixpoint contains (sub s : pystr) : bool :=
  startswith sub s ||
  match s with
  | [] => false
  | _ :: s' => contains sub s'
  end.

(** [s.split(sep)] for a non-empty separator: the pieces between the
    leftmost non-overlapping occurrences of [sep].  [skip] counts the
    characters of an occurrence still to be passed over, [acc] is the
    piece being built. *)
Fixpoint split_aux (sep : pystr) (skip : nat) (acc s : pystr) : list pystr :=
  match s with
  | [] => [acc]
  | c :: s' =>
      match skip with
      | S k => split_aux sep k acc s'
      | O =>
          if startswith sep s
          then acc :: split_aux sep (length sep - 1) [] s'
          else split_aux sep 0 (acc ++ [c]) s'
      end
  end.

Definition split (sep s : pystr) : list pystr := split_aux sep 0 [] s.

(** [s.replace(old, new)] for a non-empty [old]: every leftmost
    non-overlapping occurrence of [old] becomes [new]. *)
Fixpoint replace_aux (old new : pystr) (skip : nat) (s : pystr) : pystr :=
  match s with
  | [] => []
  | c :: s' =>
      match skip with
      | S k => replace_aux old new k s'
      | O =>
          if startswith old s
          then new ++ replace_aux old new (length old - 1) s'
          else c :: replace_aux old new 0 s'
      end
  end.

Definition replace (old new s : pystr) : pystr := replace_aux old new 0 s.

(** [s[:-1]] *)
Definition drop_last (s : pystr) : pystr := removelast s.

(** Truthiness of a string: [if s]. *)
Definition nonempty (s : pystr) : bool :=
  match s with [] => false | _ => true end.

End Py.

Import Py.

(** ** The collaborators *)

(** [ChatEventType] of the chat-completion client: the two members the
    source names, and every other member. *)
Inductive ChatEventType :=
| CONVERSATION_MESSAGE_DELTA
| CONVERSATION_CHAT_COMPLETED
| OTHER_EVENT (name : pystr).

Definition is_message_delta (t : ChatEventType) : bool :=
  match t with CONVERSATION_MESSAGE_DELTA => true | _ => false end.

(** A stream event: [event.event], [event.message.content] and
    [event.chat.usage.token_count]. *)
Record event := Event {
  ev_event : ChatEventType;
  ev_content : pystr;
  ev_token_count : Z
}.

(** The generator returned by [coze.chat.stream]: it yields events and
    then either is exhausted or raises. *)
Inductive stream :=
| Exhausted
| Fails
| Yield (e : event) (rest : stream).

(** A transcript entry [{'role': r, 'content': c}]. *)
Record entry := Entry { role : pystr; content : pystr }.

(** The dict returned by [get_user_membership_info]. *)
Record membership := Membership {
  tier_name : pystr;
  description : pystr;
  start_time : pystr;
  end_time : pystr
}.

(** What [datetime.fromisoformat(s).astimezone(beijing_tz)] gives for a
    membership date [s], shown with [strftime('%Y-%m-%d')]: the Beijing
    day, or the step that raises.  [fromisoformat] raises [ValueError] on
    a string that is no ISO date; on a date it accepts, [astimezone]
    raises [OverflowError] when the Beijing time falls outside the years
    1 to 9999 (an end of [9999-12-31T23:59:59+00:00] is eight hours too
    late). *)
Inductive conversion :=
| BeijingDay (day : pystr)
| NotIsoFormat
| OutOfRange.

Inductive outcome (A : Type) :=
| Returns (a : A)
| Raises.
Arguments Raises {A}.

Definition returned {A} (r : outcome A) : bool :=
  match r with Returns _ => true | Raises => false end.

(** Everything outside the repository.  The backend functions are those
    imported from [superbase_client]; a user or a project that is [None]
    is a falsy result, otherwise it is the record's id.  [delivers n]
    tells whether the transport call issued as the [n]-th call of the
    handler returns (otherwise it raises).  [str_of_int] is [str] on
    integers and [beijing_day] is the conversion of a membership date. *)
Record world := World {
  BOT_ID : pystr;
  current_date : pystr;
  get_or_create_user : pystr -> pystr -> outcome (option pystr);
  get_user_daily_limit : pystr -> outcome Z;
  get_today_usage_count : pystr -> pystr -> outcome Z;
  create_project : pystr -> pystr -> outcome (option pystr);
  update_project_messages : pystr -> list entry -> outcome unit;
  get_user_membership_info : pystr -> outcome (option membership);
  chat_stream : pystr -> pystr -> pystr -> stream;
  delivers : nat -> bool;
  str_of_int : Z -> pystr;
  beijing_day : pystr -> conversion
}.

(** The calls a handler issues, in the order of the source. *)
Inductive op :=
| OpGetOrCreateUser (tg_user_id user_name : pystr)
| OpGetUserDailyLimit (uid : pystr)
| OpGetTodayUsageCount (uid date : pystr)
| OpCreateProject (uid question : pystr)
| OpUpdateProjectMessages (project_id : pystr) (msgs : list entry)
| OpGetUserMembershipInfo (uid : pystr)
| OpChatStream (bot_id uid question : pystr)
| OpReplyText (txt : pystr)
| OpReplyPhoto (url : pystr)
| OpEditText (handle : nat) (txt : pystr)
| OpLogError
| OpLogWarning
| OpPrint.

(** A call of the trace: what was called and whether it returned. *)
Record call := Call { call_op : op; call_ok : bool }.

(** ** The session context and the handler monad *)

(** [context.user_data] *)
Record user_data := UserData {
  daily_limit : option Z;
  daily_count : option Z;
  last_date : option pystr;
  user_id : option pystr;
  waiting_for_question : option bool
}.

Definition empty_user_data : user_data := UserData None None None None None.

(** [update]: [str(update.effective_user.id)], the user's names (a
    Telegram user need not have a last name) and [update.message.text]. *)
Record update := Update {
  effective_user_id : pystr;
  first_name : pystr;
  last_name : option pystr;
  text : pystr
}.

Inductive exn :=
| KeyError (key : pystr)
| TypeError
| IndexError
| ValueError
| OverflowError
| BackendError
| TransportError
| StreamError.

Inductive res (A : Type) :=
| Ok (a : A)
| Raise (e : exn).
Arguments Raise {A}.

Record state := State { ctx : user_data; trace : list call }.

Definition M (A : Type) := state -> res A * state.

Definition ret {A} (a : A) : M A := fun s => (Ok a, s).

Definition bind {A B} (m : M A) (k : A -> M B) : M B :=
  fun s =>
    match m s with
    | (Ok a, s') => k a s'
    | (Raise e, s') => (Raise e, s')
    end.

Definition raise {A} (e : exn) : M A := fun s => (Raise e, s).

(** [try: m  except Exception as e: h e] *)
Definition try_except {A} (m : M A) (h : exn -> M A) : M A :=
  fun s =>
    match m s with
    | (Ok a, s') => (Ok a, s')
    | (Raise e, s') => h e s'
    end.

Declare Scope handler_scope.
Delimit Scope handler_scope with handler.
Notation "x <- m ;; k" := (bind m (fun x => k))
  (at level 61, m at next level, right associativity) : handler_scope.
Notation "m ;;; k" := (bind m (fun _ => k))
  (at level 61, right associativity) : handler_scope.
Open Scope handler_scope.

Definition record (o : op) (ok : bool) : M unit :=
  fun s => (Ok tt, State (ctx s) (trace s ++ [Call o ok])).

Definition get_ctx : M user_data := fun s => (Ok (ctx s), s).

Definition put_ctx (c : user_data) : M unit :=
  fun s => (Ok tt, State c (trace s)).

(** [d[key]] on an optional field. *)
Definition subscript {A} (key : string) (f : user_data -> option A) : M A :=
  c <- get_ctx ;;
  match f c with
  | Some v => ret v
  | None => raise (KeyError (lit key))
  end.

(** A call of the backend client. *)
Definition backend {A} (o : op) (r : outcome A) : M A :=
  record o (returned r) ;;;
  match r with
  | Returns a => ret a
  | Raises => raise BackendError
  end.

Definition log_error : M unit := record OpLogError true.
Definition log_warning : M unit := record OpLogWarning true.

Section Handlers.

Variable w : world.

(** A call of the bot transport; the result is the handle of the message
    it concerns (the position of the call in the trace). *)
Definition transport (o : op) : M nat :=
  fun s =>
    let n := length (trace s) in
    let ok := delivers w n in
    ((if ok then Ok n else Raise TransportError),
     State (ctx s) (trace s ++ [Call o ok])).

Definition reply_text (txt : pystr) : M nat := transport (OpReplyText txt).
Definition reply_photo (url : pystr) : M nat := transport (OpReplyPhoto url).
Definition edit_text (h : nat) (txt : pystr) : M nat := transport (OpEditText h txt).

(** [update.effective_user.first_name + " " + update.effective_user.last_name] *)
Definition full_name (u : update) : M pystr :=
  match last_name u with
  | Some l => ret (first_name u ++ lit " " ++ l)
  | None => raise TypeError
  end.

Definition initialize_user_data (tg_user_id user_name : pystr) : M unit :=
  let current_date := current_date w in
  user <- backend (OpGetOrCreateUser tg_user_id user_name)
            (get_or_create_user w tg_user_id user_name) ;;
  match user with
  | None => log_error
  | Some uid =>
      limit <- backend (OpGetUserDailyLimit uid) (get_user_daily_limit w uid) ;;
      used_count <- backend (OpGetTodayUsageCount uid current_date)
                      (get_today_usage_count w uid current_date) ;;
      c <- get_ctx ;;
      put_ctx (UserData (Some limit) (Some (limit - used_count)%Z)
                 (Some current_date) (Some uid) (waiting_for_question c))
  end.

Definition set_waiting (b : bool) : M unit :=
  c <- get_ctx ;;
  put_ctx (UserData (daily_limit c) (daily_count c) (last_date c) (user_id c)
             (Some b)).

Definition exhausted_notice : pystr := lit "今日算卦次数已用完，请明日再来。".
Definition question_prompt : pystr := lit "请输入你所求之事：".
Definition system_error : pystr := lit "系统错误，请稍后再试。".
Definition failure_notice : pystr := lit "抱歉，算卦系统暂时遇到问题，请稍后再试。".
Definition start_first : pystr := lit "请先发送 /start 开始算卦流程。".
Definition status_marker : pystr := lit "开始起卦".
Definition br_marker : pystr := lit "<br><br>".
Definition newline : pystr := [10%N].
Definition assistant : pystr := lit "assistant".

Definition start (u : update) : M unit :=
  record OpPrint true ;;;
  name <- full_name u ;;
  initialize_user_data (effective_user_id u) name ;;;
  remaining <- subscript "daily_count" daily_count ;;
  if (remaining <=? 0)%Z then
    reply_text exhausted_notice ;;; ret tt
  else
    reply_text question_prompt ;;;
    set_waiting true.

(** The local variables of the streaming part of [handle_message]. *)
Record locals := Locals {
  messages : list entry;
  text_buffer : pystr;
  message : option nat;
  content_buffer : pystr
}.

Definition BUFFER_SIZE : nat := 30.

(** [f"您所问的事：{question}\n\n卦象解析：\n{content_buffer}"] *)
Definition answer_text (question content_buffer : pystr) : pystr :=
  lit "您所问的事：" ++ question ++ newline ++ newline
  ++ lit "卦象解析：" ++ newline ++ content_buffer.

Definition is_image (content : pystr) : bool :=
  startswith (lit "![") content && contains (lit "](") content
  && endswith (lit ")") content.

Definition is_status (content : pystr) : bool :=
  startswith status_marker content.

(** The body of the [for] loop (lines 122-146). *)
Definition on_event (question : pystr) (ev : event) (l : locals) : M locals :=
  if is_message_delta (ev_event ev) then
    let content := ev_content ev in
    if is_image content then
      match nth_error (split (lit "](") content) 1 with
      | None => raise IndexError
      | Some piece =>
          let img_url := drop_last piece in
          reply_photo img_url ;;;
          ret (Locals (messages l ++ [Entry assistant content])
                 (text_buffer l) (message l) (content_buffer l))
      end
    else if is_status content then
      reply_text status_marker ;;;
      ret (Locals (messages l ++ [Entry assistant content])
             (text_buffer l) (message l) (content_buffer l))
    else
      let content_buffer := content_buffer l ++ content in
      match message l with
      | None =>
          h <- reply_text (answer_text question content_buffer) ;;
          ret (Locals (messages l) (answer_text question content_buffer)
                 (Some h) content_buffer)
      | Some h =>
          if BUFFER_SIZE <=? length content_buffer then
            let text_buffer :=
              replace br_marker newline (text_buffer l ++ content_buffer) in
            try_except (edit_text h text_buffer ;;; ret tt)
              (fun _ => log_warning) ;;;
            ret (Locals (messages l) text_buffer (Some h) [])
          else
            ret (Locals (messages l) (text_buffer l) (Some h) content_buffer)
      end
  else ret l.

(** The [for] loop over the events of the stream. *)
Fixpoint consume (question : pystr) (evs : stream) (l : locals) : M locals :=
  match evs with
  | Exhausted => ret l
  | Fails => raise StreamError
  | Yield ev rest =>
      l' <- on_event question ev l ;;
      consume question rest l'
  end.

(** Lines 149-156: the last edit and the update of the project record. *)
Definition flush (project_id : pystr) (l : locals) : M unit :=
  match message l with
  | Some h =>
      if nonempty (content_buffer l) then
        let text_buffer := text_buffer l ++ content_buffer l in
        let messages := messages l ++ [Entry assistant text_buffer] in
        try_except
          (edit_text h text_buffer ;;;
           backend (OpUpdateProjectMessages project_id messages)
             (update_project_messages w project_id messages))
          (fun _ => log_warning)
      else ret tt
  | None => ret tt
  end.

(** The body of the outer [try] (lines 114-156). *)
Definition stream_answer (question project_id : pystr) : M unit :=
  let user_id := project_id in
  record (OpChatStream (BOT_ID w) user_id question) true ;;;
  l <- consume question (chat_stream w (BOT_ID w) user_id question)
         (Locals [] [] None []) ;;
  flush project_id l.

(** The outer [try] statement (lines 113-160). *)
Definition answer_question (question project_id : pystr) : M unit :=
  try_except (stream_answer question project_id)
    (fun _ => log_error ;;; reply_text failure_notice ;;; ret tt).

Definition truthy (b : option bool) : bool :=
  match b with Some true => true | _ => false end.

Definition handle_message (u : update) : M unit :=
  c <- get_ctx ;;
  if truthy (waiting_for_question c) then
    name <- full_name u ;;
    initialize_user_data (effective_user_id u) name ;;;
    remaining <- subscript "daily_count" daily_count ;;
    if (remaining <=? 0)%Z then
      reply_text exhausted_notice ;;; ret tt
    else
      let question := text u in
      set_waiting false ;;;
      uid <- subscript "user_id" user_id ;;
      project <- backend (OpCreateProject uid question)
                   (create_project w uid question) ;;
      match project with
      | None => reply_text system_error ;;; ret tt
      | Some project_id => answer_question question project_id
      end
  else
    reply_text start_first ;;; ret tt.

(** [datetime.fromisoformat(s).astimezone(beijing_tz)], kept as the day
    that [strftime] shows. *)
Definition to_beijing_day (s : pystr) : M pystr :=
  match beijing_day w s with
  | BeijingDay day => ret day
  | NotIsoFormat => raise ValueError
  | OutOfRange => raise OverflowError
  end.

Definition profile (u : update) : M unit :=
  name <- full_name u ;;
  initialize_user_data (effective_user_id u) name ;;;
  let user_name := first_name u in
  remaining <- subscript "daily_count" daily_count ;;
  limit <- subscript "daily_limit" daily_limit ;;
  uid <- subscript "user_id" user_id ;;
  membership_info <- backend (OpGetUserMembershipInfo uid)
                       (get_user_membership_info w uid) ;;
  match membership_info with
  | Some info =>
      start_day <- to_beijing_day (start_time info) ;;
      end_day <- to_beijing_day (end_time info) ;;
      reply_text
        (lit "用户：" ++ user_name ++ newline
         ++ lit "会员等级：" ++ tier_name info ++ newline
         ++ lit "会员说明：" ++ description info ++ newline
         ++ lit "会员有效期：" ++ start_day ++ lit " 至 " ++ end_day ++ newline
         ++ lit "今日剩余算卦次数：" ++ str_of_int w remaining ++ newline
         ++ lit "每日限额：" ++ str_of_int w limit ++ lit "次") ;;;
      ret tt
  | None =>
      reply_text
        (lit "用户：" ++ user_name ++ newline
         ++ lit "会员等级：免费用户" ++ newline
         ++ lit "今日剩余算卦次数：" ++ str_of_int w remaining ++ newline
         ++ lit "每日限额：" ++ str_of_int w limit ++ lit "次") ;;;
      ret tt
  end.

End Handlers.

(** ** Observations on streams and traces *)

(** [extend s new]: the state [s] after the calls [new] were issued. *)
Definition extend (s : state) (new : list call) : state :=
  State (ctx s) (trace s ++ new).

Definition is_create_project (o : op) : bool :=
  match o with OpCreateProject _ _ => true | _ => false end.

Definition is_chat_stream (o : op) : bool :=
  match o with OpChatStream _ _ _ => true | _ => false end.

Definition is_update (o : op) : bool :=
  match o with OpUpdateProjectMessages _ _ => true | _ => false end.

Definition is_edit (o : op) : bool :=
  match o with OpEditText _ _ => true | _ => false end.

Definition is_reply_text (o : op) : bool :=
  match o with OpReplyText _ => true | _ => false end.

Definition is_reply_of (txt : pystr) (o : op) : bool :=
  match o with OpReplyText t => pystr_eqb t txt | _ => false end.

(** Sends and edits: what reaches the chat. *)
Definition is_outbound (o : op) : bool :=
  match o with
  | OpReplyText _ | OpReplyPhoto _ | OpEditText _ _ => true
  | _ => false
  end.

(** How many calls of a trace satisfy [p]. *)
Definition count_ops (p : op -> bool) (tr : list call) : nat :=
  length (filter (fun c => p (call_op c)) tr).

(** The content fragments a stream delivers: the contents of its
    message-delta events, in order. *)
Fixpoint fragments (evs : stream) : list pystr :=
  match evs with
  | Exhausted | Fails => []
  | Yield ev rest =>
      if is_message_delta (ev_event ev)
      then ev_content ev :: fragments rest
      else fragments rest
  end.

(** The stream ends without raising. *)
Fixpoint completes (evs : stream) : bool :=
  match evs with
  | Exhausted => true
  | Fails => false
  | Yield _ rest => completes rest
  end.

(** A fragment that is neither image-formatted nor a status marker. *)
Definition is_plain (f : pystr) : bool := negb (is_image f) && negb (is_status f).

Definition plain_stream (evs : stream) : bool := forallb is_plain (fragments evs).

Definition total_fragment_length (evs : stream) : nat :=
  length (concat (fragments evs)).

(** [ceil(a / b)] *)
Definition ceil_div (a b : nat) : nat := (a + b - 1) / b.

(** The transcript entries of the image and status fragments. *)
Definition special_entries (evs : stream) : list entry :=
  map (Entry assistant)
    (filter (fun f => is_image f || is_status f) (fragments evs)).

(** The text the chat shows for the message with handle [h] after the
    calls [tr], the first of which is the [n]-th call of the handler: the
    text of the last send or edit of that message that returned. *)
Fixpoint displayed_from (n h : nat) (tr : list call) (cur : option pystr)
  : option pystr :=
  match tr with
  | [] => cur
  | c :: tr' =>
      displayed_from (S n) h tr'
        (if call_ok c then
           match call_op c with
           | OpReplyText t => if n =? h then Some t else cur
           | OpEditText h' t => if h' =? h then Some t else cur
           | _ => cur
           end
         else cur)
  end.

Definition displayed (h : nat) (tr : list call) : option pystr :=
  displayed_from 0 h tr None.

(** The calls a stream loop may issue for the question [q]. *)
Definition stream_call (q : pystr) (c : call) : Prop :=
  match call_op c with
  | OpReplyPhoto _ | OpEditText _ _ | OpLogWarning => True
  | OpReplyText t => t = status_marker \/ exists b, t = answer_text q b
  | _ => False
  end.

(** The session context after a successful refresh of the quota. *)
Definition refreshed (c : user_data) (w : world) (uid : pystr)
  (limit used : Z) : user_data :=
  UserData (Some limit) (Some (limit - used)%Z) (Some (current_date w))
    (Some uid) (waiting_for_question c).

(** The three backend reads of a successful refresh. *)
Definition refresh_calls (w : world) (u : update) (name uid : pystr)
  : list call :=
  [Call (OpGetOrCreateUser (effective_user_id u) name) true;
   Call (OpGetUserDailyLimit uid) true;
   Call (OpGetTodayUsageCount uid (current_date w)) true].

(** ** Concrete inputs *)

Definition delta (c : pystr) : event := Event CONVERSATION_MESSAGE_DELTA c 0.

Definition chat_completed (tokens : Z) : event :=
  Event CONVERSATION_CHAT_COMPLETED [] tokens.

Fixpoint stream_of (l : list event) : stream :=
  match l with
  | [] => Exhausted
  | e :: r => Yield e (stream_of r)
  end.

(** A world in which the user ["u1"] has the given limit and usage, every
    project is ["p1"], the chat backend answers with [evs] and the
    transport fails exactly at the positions listed in [lost]. *)
Definition sample_world (evs : stream) (limit used : Z) (lost : list nat)
  : world :=
  World (lit "bot") (lit "2024-05-01")
    (fun _ _ => Returns (Some (lit "u1")))
    (fun _ => Returns limit)
    (fun _ _ => Returns used)
    (fun _ _ => Returns (Some (lit "p1")))
    (fun _ _ => Returns tt)
    (fun _ => Returns None)
    (fun _ _ _ => evs)
    (fun n => negb (existsb (Nat.eqb n) lost))
    (fun _ => lit "n")
    (fun d => BeijingDay d).

(** The same world when the backend cannot resolve the user. *)
Definition unresolved_world : world :=
  World (lit "bot") (lit "2024-05-01")
    (fun _ _ => Returns None)
    (fun _ => Returns 3%Z)
    (fun _ _ => Returns 0%Z)
    (fun _ _ => Returns (Some (lit "p1")))
    (fun _ _ => Returns tt)
    (fun _ => Returns None)
    (fun _ _ _ => Exhausted)
    (fun _ => true)
    (fun _ => lit "n")
    (fun d => BeijingDay d).

Definition sample_update : update :=
  Update (lit "42") (lit "San") (Some (lit "Zhang")) (lit "今年运势如何").

(** A session that [start] has put in the awaiting-question state. *)
Definition awaiting_ctx : user_data :=
  UserData (Some 3%Z) (Some 3%Z) (Some (lit "2024-05-01")) (Some (lit "u1"))
    (Some true).

Definition no_locals : locals := Locals [] [] None [].

(** The transcript entry one event contributes. *)
Definition special_entry (ev : event) : list entry :=
  if is_message_delta (ev_event ev) then
    if is_image (ev_content ev) || is_status (ev_content ev)
    then [Entry assistant (ev_content ev)] else []
  else [].

(** The message handle, once set, is the position of a text send that
    returned. *)
Definition sent_handle (l : locals) (s : state) : Prop :=
  forall h, message l = Some h ->
    exists t, nth_error (trace s) h = Some (Call (OpReplyText t) true).

(** A call that neither opens the stream nor updates the project. *)
Definition quiet (c : call) : Prop :=
  is_chat_stream (call_op c) = false /\ is_update (call_op c) = false.

(** [s'] is [s] after quiet calls. *)
Definition quiet_from (s s' : state) : Prop :=
  exists new, trace s' = trace s ++ new /\ Forall quiet new.

(** A computation that issues quiet calls only. *)
Definition stays_quiet {A} (m : M A) : Prop :=
  forall s, quiet_from s (snd (m s)).

(** A computation that issues quiet calls only, or issues quiet calls,
    creates the project of the question [q] and goes on with
    [answer_question]. *)
Definition reaches_stream (w : world) (q : pystr) (m : M unit) : Prop :=
  forall s,
    quiet_from s (snd (m s))
    \/ exists pre c' uid pid,
         Forall quiet pre
         /\ create_project w uid q = Returns (Some pid)
         /\ m s = answer_question w q pid
                    (State c' (trace s ++ pre
                               ++ [Call (OpCreateProject uid q) true])).

(** ** The other handlers, sessions and [suangua] *)

(** A handler run that sends at most one message, a text reply, and
    leaves projects and the chat backend alone. *)
Definition replies_at_most_once (new : list call) : Prop :=
  count_ops is_outbound new <= 1
  /\ count_ops is_reply_text new = count_ops is_outbound new
  /\ count_ops is_create_project new = 0
  /\ count_ops is_chat_stream new = 0
  /\ count_ops is_update new = 0.

(** A world in which the backend creates no project. *)
Definition no_project_world : world :=
  World (lit "bot") (lit "2024-05-01")
    (fun _ _ => Returns (Some (lit "u1")))
    (fun _ => Returns 3%Z)
    (fun _ _ => Returns 0%Z)
    (fun _ _ => Returns None)
    (fun _ _ => Returns tt)
    (fun _ => Returns None)
    (fun _ _ _ => Exhausted)
    (fun _ => true)
    (fun _ => lit "n")
    (fun d => BeijingDay d).



(** *** Sessions *)

(** The updates the three registered handlers receive (lines 235-237):
    the command [/start], the command [/profile], and a text message that
    is not a command. *)
Inductive inbound :=
| START_COMMAND
| PROFILE_COMMAND
| TEXT_MESSAGE.

Definition dispatch (w : world) (i : inbound) (u : update) : M unit :=
  match i with
  | START_COMMAND => start w u
  | PROFILE_COMMAND => profile w u
  | TEXT_MESSAGE => handle_message w u
  end.

(** The session context after one update: the handler starts with an
    empty trace, and what it wrote to [context.user_data] stays, whether
    it returned or raised. *)
Definition after_update (c : user_data) (x : world * inbound * update)
  : user_data :=
  let '(w, i, u) := x in ctx (snd (dispatch w i u (State c []))).

(** The session context after a sequence of updates, each with the
    world of its time, starting from the empty context. *)
Definition session_after (xs : list (world * inbound * update)) : user_data :=
  fold_left after_update xs empty_user_data.

(** The four cached fields are all present. *)
Definition cache_filled (c : user_data) : bool :=
  match daily_limit c, daily_count c, last_date c, user_id c with
  | Some _, Some _, Some _, Some _ => true
  | _, _, _, _ => false
  end.

(** The cache is filled, or the context is as on first contact: none of
    the four fields is present and no question is awaited. *)
Definition coherent (c : user_data) : Prop :=
  cache_filled c = true
  \/ (daily_limit c = None /\ daily_count c = None /\ last_date c = None
      /\ user_id c = None /\ truthy (waiting_for_question c) = false).

(** *** Edits *)

(** The text of an edit is free of the line-break marker. *)
Definition edit_without_marker (c : call) : Prop :=
  match call_op c with
  | OpEditText _ t => contains br_marker t = false
  | _ => True
  end.

(** An edit is aimed at a delivered text send that carries the header of
    the question [q]. *)
Definition edit_targets_answer (q : pystr) (tr : list call) (c : call) : Prop :=
  match call_op c with
  | OpEditText h _ =>
      exists b, nth_error tr h = Some (Call (OpReplyText (answer_text q b)) true)
  | _ => True
  end.

(** The message handle, once set, is the position of the delivered send
    of the header. *)
Definition answer_handle (q : pystr) (l : locals) (s : state) : Prop :=
  forall h, message l = Some h ->
    exists b, nth_error (trace s) h
              = Some (Call (OpReplyText (answer_text q b)) true).

(** *** [suangua] (lines 197-229) *)

(** What [suangua] writes to the log and the console, and the stream it
    opens: [logger.info], [logger.error] (its text is that of the
    exception), [print], and the call of [coze.chat.stream]. *)
Inductive console :=
| LoggedInfo (line : pystr)
| LoggedError
| Printed (line : pystr)
| Streamed (bot_id uid question : pystr).

Definition is_chat_completed (t : ChatEventType) : bool :=
  match t with CONVERSATION_CHAT_COMPLETED => true | _ => false end.

(** The loop of [suangua] (lines 204-218) from the accumulated [result]
    and output; the result is [None] when the stream raises. *)
Fixpoint suangua_loop (str_of_int : Z -> pystr)
  (event_name : ChatEventType -> pystr) (evs : stream) (result : pystr)
  (out : list console) : option pystr * list console :=
  match evs with
  | Exhausted => (Some result, out)
  | Fails => (None, out)
  | Yield ev rest =>
      let out := out ++ [Printed (lit "收到事件：" ++ event_name (ev_event ev))] in
      let result' :=
        if is_message_delta (ev_event ev) then result ++ ev_content ev
        else result in
      let out :=
        if is_message_delta (ev_event ev)
        then out ++ [Printed (lit "收到消息：" ++ ev_content ev)]
        else out in
      let out :=
        if is_chat_completed (ev_event ev)
        then out ++ [Printed (lit "Token usage: "
                              ++ str_of_int (ev_token_count ev))]
        else out in
      suangua_loop str_of_int event_name rest result' out
  end.

(** [special_chars] (line 221). *)
Definition special_chars : list N := lit "_*[]()~`>#+-=|{}.!".

Definition backslash : N := 92%N.

(** Lines 222-223: one [replace] per special character, in the order of
    the list. *)
Definition escape_special (result : pystr) : pystr :=
  fold_left (fun result char => replace [char] [backslash; char] result)
    special_chars result.

Definition nothing_notice : pystr := lit "抱歉，算卦失败，请稍后再试。".

(** [suangua(question)]: the returned text and the output.  [hash_str] is
    [str(hash(question))] and [event_name] is [str] on event types. *)
Definition suangua (w : world) (hash_str : pystr -> pystr)
  (event_name : ChatEventType -> pystr) (question : pystr)
  : pystr * list console :=
  let out := [LoggedInfo (lit "算卦问题：" ++ question)] in
  let uid := lit "user_" ++ hash_str question in
  let out := out ++ [Streamed (BOT_ID w) uid (question ++ newline)] in
  match suangua_loop (str_of_int w) event_name
          (chat_stream w (BOT_ID w) uid (question ++ newline)) [] out with
  | (Some result, out) =>
      let result := escape_special result in
      (if nonempty result then result else nothing_notice, out)
  | (None, out) => (failure_notice, out ++ [LoggedError])
  end.

Definition is_special (c : N) : bool := existsb (N.eqb c) special_chars.

(** A character as the escaping leaves it: a special character gets a
    backslash in front. *)
Definition escape_char (c : N) : pystr :=
  if is_special c then [backslash; c] else [c].

(** * Properties *)

Unset Implicit Arguments.

(** ** The string functions on examples *)

Example lit_status_marker : lit "开始起卦" = [24320; 22987; 36215; 21350]%N.
Proof. reflexivity. Qed.

Example split_two_separators :
  split (lit "](") (lit "![a](b](c)") = [lit "![a"; lit "b"; lit "c)"].
Proof. reflexivity. Qed.

Example split_trailing_separator : split (lit "](") (lit "a](") = [lit "a"; []].
Proof. reflexivity. Qed.

Example replace_leftmost_first :
  replace (lit "<br><br>") [10%N] (lit "x<br><br><br>y<br><br>")
  = lit "x" ++ [10%N] ++ lit "<br>y" ++ [10%N].
Proof. reflexivity. Qed.

(** ** Facts about [startswith] and [replace] *)

Lemma startswith_fresh p c s : p <> [] -> ~ In c p -> startswith p (c :: s) = false.
Proof.
  destruct p as [|a p]; [congruence|]. intros _ Hin. simpl.
  destruct (N.eqb_spec a c); [|reflexivity]. exfalso. apply Hin. now left.
Qed.

Lemma startswith_cons_inv p c s :
  p <> [] -> startswith p (c :: s) = true ->
  p = c :: tl p /\ startswith (tl p) s = true.
Proof.
  destruct p as [|a p]; [congruence|]. intros _ H. simpl in *.
  apply andb_true_iff in H as [H1 H2]. apply N.eqb_eq in H1. now subst.
Qed.

Lemma startswith_cons_intro p c s :
  p = c :: tl p -> startswith (tl p) s = true -> startswith p (c :: s) = true.
Proof. intros -> H. simpl in *. now rewrite N.eqb_refl. Qed.

Lemma not_in_tl (c : N) p : ~ In c p -> ~ In c (tl p).
Proof. destruct p; simpl; tauto. Qed.

Section ReplaceFacts.

Variables (old : pystr) (c0 : N).
Hypothesis old_nonempty : old <> [].
Hypothesis c0_fresh : ~ In c0 old.

Lemma startswith_app p r : startswith p (p ++ r) = true.
Proof. induction p as [|a p IH]; simpl; [reflexivity|]. now rewrite N.eqb_refl. Qed.

Lemma startswith_inv p s : startswith p s = true -> s = p ++ skipn (length p) s.
Proof.
  revert s; induction p as [|a p IH]; intros s H; simpl in *; [reflexivity|].
  destruct s as [|b s]; [discriminate|].
  apply andb_true_iff in H as [Hab Hp]. apply N.eqb_eq in Hab. subst b.
  simpl. f_equal. now apply IH.
Qed.

Lemma startswith_long p x y :
  length p <= length x -> startswith p (x ++ y) = startswith p x.
Proof.
  revert x; induction p as [|a p IH]; intros x Hl; simpl; [reflexivity|].
  destruct x as [|b x]; simpl in *; [lia|].
  rewrite IH by lia. reflexivity.
Qed.

Lemma startswith_short p x : length x < length p -> startswith p x = false.
Proof.
  revert x; induction p as [|a p IH]; intros x Hl; simpl in *; [lia|].
  destruct x as [|b x]; [reflexivity|]. simpl in Hl.
  rewrite IH by lia. apply andb_false_r.
Qed.

Lemma replace_aux_skip new k s :
  replace_aux old new k s = replace_aux old new 0 (skipn k s).
Proof.
  revert k; induction s as [|c s IH]; intros k.
  - now destruct k.
  - destruct k as [|k]; [reflexivity|]. simpl. apply IH.
Qed.

Lemma replace_match new r :
  replace old new (old ++ r) = new ++ replace old new r.
Proof.
  unfold replace. remember (old ++ r) as t eqn:Ht.
  destruct t as [|c t].
  - destruct old; [congruence|discriminate].
  - cbn [replace_aux]. rewrite Ht, startswith_app. f_equal.
    rewrite replace_aux_skip. f_equal.
    destruct old as [|a p]; [congruence|].
    simpl in Ht. injection Ht as _ ->. simpl. rewrite Nat.sub_0_r.
    rewrite skipn_app, Nat.sub_diag, skipn_all. reflexivity.
Qed.

Lemma replace_nomatch new c s :
  startswith old (c :: s) = false ->
  replace old new (c :: s) = c :: replace old new s.
Proof. intros H. unfold replace. cbn [replace_aux]. now rewrite H. Qed.

Lemma replace_short new x : length x < length old -> replace old new x = x.
Proof.
  induction x as [|c x IH]; intros Hl; [reflexivity|].
  rewrite replace_nomatch by now apply startswith_short.
  simpl in Hl. rewrite IH by lia. reflexivity.
Qed.

Lemma startswith_replace wd x y :
  ~ In c0 wd ->
  startswith wd (replace old [c0] x ++ y) = true ->
  startswith wd (x ++ y) = true.
Proof.
  revert x; induction wd as [|a wd IH]; intros x Hin H; [reflexivity|].
  destruct x as [|c x]; [exact H|].
  destruct (startswith old (c :: x)) eqn:E.
  - apply startswith_inv in E. rewrite E in H. rewrite replace_match in H.
    simpl in H. apply andb_true_iff in H as [H _]. apply N.eqb_eq in H.
    exfalso. apply Hin. now left.
  - rewrite replace_nomatch in H by exact E. simpl in *.
    apply andb_true_iff in H as [H1 H2]. rewrite H1. simpl.
    apply IH; [|exact H2]. intros Hc. apply Hin. now right.
Qed.

Lemma replace_replace_app x y :
  replace old [c0] (replace old [c0] x ++ y) = replace old [c0] (x ++ y).
Proof.
  remember (length x) as n eqn:Hn. revert x Hn.
  induction n as [n IH] using lt_wf_ind. intros x Hn.
  destruct x as [|c x]; [reflexivity|].
  destruct (startswith old (c :: x)) eqn:E.
  - apply startswith_inv in E. set (r := skipn (length old) (c :: x)) in *.
    rewrite E. rewrite replace_match. rewrite <- !app_assoc. rewrite replace_match.
    simpl. rewrite replace_nomatch.
    + f_equal. apply (IH (length r)); [|reflexivity].
      subst n. rewrite E, length_app.
      destruct old; [congruence|simpl; lia].
    + now apply startswith_fresh.
  - rewrite replace_nomatch by exact E.
    destruct (startswith old ((c :: x) ++ y)) eqn:E2.
    + assert (Hl : length (c :: x) < length old).
      { destruct (Nat.lt_ge_cases (length (c :: x)) (length old)); [assumption|].
        rewrite startswith_long in E2 by assumption. congruence. }
      simpl in Hl. rewrite (replace_short [c0] x) by lia. reflexivity.
    + simpl in E2 |- *. rewrite (replace_nomatch [c0] c (x ++ y) E2).
      rewrite replace_nomatch.
      * f_equal. apply (IH (length x)); [subst n; simpl; lia|reflexivity].
      * destruct (startswith old (c :: replace old [c0] x ++ y)) eqn:E3; [|reflexivity].
        apply startswith_cons_inv in E3 as [H1 H2]; [|assumption].
        apply startswith_replace in H2; [|now apply not_in_tl].
        rewrite (startswith_cons_intro _ _ _ H1 H2) in E2. discriminate.
Qed.

End ReplaceFacts.

(** ** The stream loop, one event at a time *)

Lemma on_event_cases w q ev l s :
  let ok := delivers w (length (trace s)) in
  let f := ev_content ev in
  let entry_added :=
    Locals (messages l ++ [Entry assistant f]) (text_buffer l) (message l)
      (content_buffer l) in
  let cb := content_buffer l ++ f in
  on_event w q ev l s =
  if is_message_delta (ev_event ev) then
    if is_image f then
      match nth_error (split (lit "](") f) 1 with
      | None => (Raise IndexError, s)
      | Some piece =>
          (if ok then Ok entry_added else Raise TransportError,
           extend s [Call (OpReplyPhoto (drop_last piece)) ok])
      end
    else if is_status f then
      (if ok then Ok entry_added else Raise TransportError,
       extend s [Call (OpReplyText status_marker) ok])
    else
      match message l with
      | None =>
          (if ok
           then Ok (Locals (messages l) (answer_text q cb)
                      (Some (length (trace s))) cb)
           else Raise TransportError,
           extend s [Call (OpReplyText (answer_text q cb)) ok])
      | Some h =>
          if BUFFER_SIZE <=? length cb then
            let tb := replace br_marker newline (text_buffer l ++ cb) in
            (Ok (Locals (messages l) tb (Some h) []),
             extend s (Call (OpEditText h tb) ok
                       :: if ok then [] else [Call OpLogWarning true]))
          else (Ok (Locals (messages l) (text_buffer l) (Some h) cb), s)
      end
  else (Ok l, s).
Proof.
  unfold on_event. cbv zeta.
  destruct (is_message_delta (ev_event ev)); [|reflexivity].
  destruct (is_image (ev_content ev)).
  { destruct (nth_error _ 1); [|reflexivity].
    unfold bind, reply_photo, transport, ret, extend.
    destruct (delivers w _); reflexivity. }
  destruct (is_status (ev_content ev)).
  { unfold bind, reply_text, transport, ret, extend.
    destruct (delivers w _); reflexivity. }
  destruct (message l) as [h|].
  - destruct (BUFFER_SIZE <=? _); [|reflexivity].
    unfold bind, try_except, edit_text, transport, ret, extend, log_warning, record.
    destruct (delivers w _); simpl; [reflexivity|].
    rewrite <- app_assoc. reflexivity.
  - unfold bind, reply_text, transport, ret, extend.
    destruct (delivers w _); reflexivity.
Qed.

(** ** The quota gate *)

Lemma initialize_user_data_resolved w tg name uid limit used s :
  get_or_create_user w tg name = Returns (Some uid) ->
  get_user_daily_limit w uid = Returns limit ->
  get_today_usage_count w uid (current_date w) = Returns used ->
  initialize_user_data w tg name s =
  (Ok tt, State (refreshed (ctx s) w uid limit used)
            (trace s ++ [Call (OpGetOrCreateUser tg name) true;
                         Call (OpGetUserDailyLimit uid) true;
                         Call (OpGetTodayUsageCount uid (current_date w)) true])).
Proof.
  intros Hu Hl Hc.
  unfold initialize_user_data, backend, bind, record, ret, get_ctx, put_ctx.
  rewrite Hu. simpl. rewrite Hl. simpl. rewrite Hc. simpl.
  rewrite <- !app_assoc. reflexivity.
Qed.

Lemma handle_message_exhausted w u s ln uid limit used :
  truthy (waiting_for_question (ctx s)) = true ->
  last_name u = Some ln ->
  get_or_create_user w (effective_user_id u) (first_name u ++ lit " " ++ ln)
    = Returns (Some uid) ->
  get_user_daily_limit w uid = Returns limit ->
  get_today_usage_count w uid (current_date w) = Returns used ->
  (limit - used <= 0)%Z ->
  let ok := delivers w (length (trace s) + 3) in
  handle_message w u s =
  (if ok then Ok tt else Raise TransportError,
   State (refreshed (ctx s) w uid limit used)
     (trace s ++ refresh_calls w u (first_name u ++ lit " " ++ ln) uid
      ++ [Call (OpReplyText exhausted_notice) ok])).
Proof.
  intros Hw Hln Hu Hl Hc Hle ok.
  unfold handle_message, bind at 1, get_ctx. rewrite Hw.
  unfold bind at 1, full_name. rewrite Hln. unfold ret at 1.
  unfold bind at 1.
  rewrite (initialize_user_data_resolved _ _ _ _ _ _ _ Hu Hl Hc).
  unfold bind at 1, subscript, bind at 1, get_ctx. cbn [ctx refreshed daily_count].
  unfold ret at 1.
  apply Z.leb_le in Hle. rewrite Hle.
  unfold bind, reply_text, transport, ret. cbn [trace ctx].
  rewrite length_app. cbn [length]. fold ok.
  unfold refresh_calls. rewrite <- !app_assoc. cbn [app].
  destruct ok; reflexivity.
Qed.

(** C1. While a question is awaited, a refreshed remaining quota
    [daily_limit - used_count <= 0] makes [handle_message] issue the three
    backend reads and the exhaustion notice and nothing else: no project is
    created and no chat-completion stream is opened. *)
Theorem C1_exhausted_quota_accepts_no_question w u s ln uid limit used :
  truthy (waiting_for_question (ctx s)) = true ->
  last_name u = Some ln ->
  get_or_create_user w (effective_user_id u) (first_name u ++ lit " " ++ ln)
    = Returns (Some uid) ->
  get_user_daily_limit w uid = Returns limit ->
  get_today_usage_count w uid (current_date w) = Returns used ->
  (limit - used <= 0)%Z ->
  let run := handle_message w u s in
  let ok := delivers w (length (trace s) + 3) in
  let issued :=
    refresh_calls w u (first_name u ++ lit " " ++ ln) uid
    ++ [Call (OpReplyText exhausted_notice) ok] in
  trace (snd run) = trace s ++ issued
  /\ fst run = (if ok then Ok tt else Raise TransportError)
  /\ count_ops is_create_project issued = 0
  /\ count_ops is_chat_stream issued = 0.
Proof.
  intros Hw Hln Hu Hl Hc Hle run ok issued. subst run.
  rewrite (handle_message_exhausted _ _ _ _ _ _ _ Hw Hln Hu Hl Hc Hle).
  repeat split.
Qed.

Lemma C1_exhausted_quota_witness :
  let w := sample_world Exhausted 3 3 [] in
  let run := handle_message w sample_update (State awaiting_ctx []) in
  trace (snd run)
  = [] ++ (refresh_calls w sample_update (lit "San Zhang") (lit "u1")
           ++ [Call (OpReplyText exhausted_notice) true])
  /\ fst run = Ok tt
  /\ count_ops is_create_project
       (refresh_calls w sample_update (lit "San Zhang") (lit "u1")
        ++ [Call (OpReplyText exhausted_notice) true]) = 0
  /\ count_ops is_chat_stream
       (refresh_calls w sample_update (lit "San Zhang") (lit "u1")
        ++ [Call (OpReplyText exhausted_notice) true]) = 0.
Proof.
  exact (@C1_exhausted_quota_accepts_no_question
           (sample_world Exhausted 3 3 []) sample_update
           (State awaiting_ctx []) (lit "Zhang") (lit "u1") 3%Z 3%Z
           eq_refl eq_refl eq_refl eq_refl eq_refl
           ltac:(vm_compute; discriminate)).
Defined.

(** C2, as the source has it.  When the re-refreshed quota is exhausted
    the handler replies with the exhaustion notice and returns before the
    assignment to [waiting_for_question]: the flag keeps its value, so the
    session is still awaiting a question, and the message is not consumed
    (no project is created for it). *)
Theorem C2_exhausted_quota_keeps_awaiting w u s ln uid limit used :
  truthy (waiting_for_question (ctx s)) = true ->
  last_name u = Some ln ->
  get_or_create_user w (effective_user_id u) (first_name u ++ lit " " ++ ln)
    = Returns (Some uid) ->
  get_user_daily_limit w uid = Returns limit ->
  get_today_usage_count w uid (current_date w) = Returns used ->
  (limit - used <= 0)%Z ->
  let s' := snd (handle_message w u s) in
  waiting_for_question (ctx s') = waiting_for_question (ctx s)
  /\ truthy (waiting_for_question (ctx s')) = true
  /\ (exists ok, last (trace s') (Call OpPrint true)
                 = Call (OpReplyText exhausted_notice) ok)
  /\ count_ops is_create_project (skipn (length (trace s)) (trace s')) = 0.
Proof.
  intros Hw Hln Hu Hl Hc Hle s'. subst s'.
  rewrite (handle_message_exhausted _ _ _ _ _ _ _ Hw Hln Hu Hl Hc Hle).
  cbn [snd ctx trace refreshed waiting_for_question].
  split; [reflexivity|]. split; [exact Hw|]. split.
  - eexists. rewrite app_assoc. apply last_last.
  - rewrite skipn_app, Nat.sub_diag, skipn_all. reflexivity.
Qed.

Lemma C2_exhausted_quota_witness :
  let s := State awaiting_ctx [] in
  let s' := snd (handle_message (sample_world Exhausted 3 3 []) sample_update s) in
  waiting_for_question (ctx s') = waiting_for_question (ctx s)
  /\ truthy (waiting_for_question (ctx s')) = true
  /\ (exists ok, last (trace s') (Call OpPrint true)
                 = Call (OpReplyText exhausted_notice) ok)
  /\ count_ops is_create_project (skipn (length (trace s)) (trace s')) = 0.
Proof.
  exact (@C2_exhausted_quota_keeps_awaiting
           (sample_world Exhausted 3 3 []) sample_update
           (State awaiting_ctx []) (lit "Zhang") (lit "u1") 3%Z 3%Z
           eq_refl eq_refl eq_refl eq_refl eq_refl
           ltac:(vm_compute; discriminate)).
Defined.

(** C2 as stated fails: a question is awaited, the refreshed quota is
    [3 - 3 = 0], the handler replies with the exhaustion notice, and
    [waiting_for_question] is still [True] afterwards, not [False]. *)
Lemma C2_counterexample :
  let w := sample_world Exhausted 3 3 [] in
  let run := handle_message w sample_update (State awaiting_ctx []) in
  truthy (waiting_for_question awaiting_ctx) = true
  /\ get_user_daily_limit w (lit "u1") = Returns 3%Z
  /\ get_today_usage_count w (lit "u1") (current_date w) = Returns 3%Z
  /\ fst run = Ok tt
  /\ last (trace (snd run)) (Call OpPrint true)
     = Call (OpReplyText exhausted_notice) true
  /\ waiting_for_question (ctx (snd run)) = Some true
  /\ waiting_for_question (ctx (snd run)) <> Some false.
Proof. vm_compute. repeat split; discriminate. Qed.
(** ** Fragments that are not buffered *)

Lemma consume_yield w q ev rest l s :
  consume w q (Yield ev rest) l s =
  match on_event w q ev l s with
  | (Ok l', s') => consume w q rest l' s'
  | (Raise e, s') => (Raise e, s')
  end.
Proof. reflexivity. Qed.

(** C10. An event whose type is not [CONVERSATION_MESSAGE_DELTA]
    (a [CONVERSATION_CHAT_COMPLETED] event among them) is ignored by the
    stream loop: it issues no call, so nothing is sent or edited, the local
    variables ([messages], [text_buffer], [message], [content_buffer]) and
    the session context are unchanged, and the loop goes on with the next
    event as if the event had not been there. *)
Theorem C10_non_delta_event_ignored w q ev l s :
  ev_event ev <> CONVERSATION_MESSAGE_DELTA ->
  on_event w q ev l s = (Ok l, s)
  /\ forall rest, consume w q (Yield ev rest) l s = consume w q rest l s.
Proof.
  intros Hne.
  assert (H : on_event w q ev l s = (Ok l, s)).
  { unfold on_event. destruct (ev_event ev); [congruence|reflexivity..]. }
  split; [exact H|]. intros rest. rewrite consume_yield, H. reflexivity.
Qed.

Lemma C10_chat_completed_witness :
  let w := sample_world Exhausted 3 0 [] in
  let l := Locals [] (lit "text") (Some 5) (lit "buffered") in
  let s := State awaiting_ctx [] in
  on_event w (lit "q") (chat_completed 120) l s = (Ok l, s)
  /\ forall rest,
       consume w (lit "q") (Yield (chat_completed 120) rest) l s
       = consume w (lit "q") rest l s.
Proof.
  exact (@C10_non_delta_event_ignored (sample_world Exhausted 3 0 [])
           (lit "q") (chat_completed 120)
           (Locals [] (lit "text") (Some 5) (lit "buffered"))
           (State awaiting_ctx []) ltac:(discriminate)).
Defined.

Lemma status_is_not_image f : is_status f = true -> is_image f = false.
Proof.
  unfold is_status, is_image. intros H.
  destruct f as [|c f]; [discriminate|].
  assert (Hc : c = 24320%N).
  { change status_marker with (24320%N :: lit "始起卦") in H.
    cbn [startswith] in H. apply andb_true_iff in H as [H _].
    apply N.eqb_eq in H. auto. }
  subst c. reflexivity.
Qed.

(** C7, as the source has it.  A message-delta fragment whose content
    begins with the status marker is answered by exactly one call, a text
    message of its own carrying the marker [开始起卦] and nothing else of
    the fragment; when that send returns, the fragment is recorded
    as an assistant transcript entry and [content_buffer], [text_buffer]
    and the message handle are what they were: no character of the
    fragment enters [content_buffer]. *)
Theorem C7_status_fragment_sent_not_buffered w q ev l s :
  ev_event ev = CONVERSATION_MESSAGE_DELTA ->
  startswith status_marker (ev_content ev) = true ->
  let ok := delivers w (length (trace s)) in
  on_event w q ev l s =
  (if ok
   then Ok (Locals (messages l ++ [Entry assistant (ev_content ev)])
              (text_buffer l) (message l) (content_buffer l))
   else Raise TransportError,
   extend s [Call (OpReplyText status_marker) ok]).
Proof.
  intros Hd Hs ok. rewrite on_event_cases. cbv zeta.
  rewrite Hd. cbn [is_message_delta].
  rewrite (status_is_not_image _ Hs). unfold is_status. rewrite Hs.
  reflexivity.
Qed.

Lemma C7_status_fragment_witness :
  let w := sample_world Exhausted 3 0 [] in
  let ev := delta (lit "开始起卦，请稍候") in
  let l := Locals [] (lit "text") (Some 5) (lit "buffered") in
  let s := State awaiting_ctx [] in
  let ok := delivers w (length (trace s)) in
  on_event w (lit "q") ev l s =
  (if ok
   then Ok (Locals (messages l ++ [Entry assistant (ev_content ev)])
              (text_buffer l) (message l) (content_buffer l))
   else Raise TransportError,
   extend s [Call (OpReplyText status_marker) ok]).
Proof.
  apply (C7_status_fragment_sent_not_buffered (sample_world Exhausted 3 0 [])
           (lit "q") (delta (lit "开始起卦，请稍候"))
           (Locals [] (lit "text") (Some 5) (lit "buffered"))
           (State awaiting_ctx [])).
  - reflexivity.
  - vm_compute. reflexivity.
Defined.

(** C7 as stated fails: the fragment [开始起卦，请稍候] begins with the
    marker, and the one text message it causes holds the marker
    [开始起卦], the literal of the call, not the fragment; the fragment
    itself is sent in no call.  When that send raises, the event raises
    with it and no transcript entry is recorded. *)
Lemma C7_counterexample :
  let f := lit "开始起卦，请稍候" in
  let run lost :=
    on_event (sample_world Exhausted 3 0 lost) (lit "q") (delta f) no_locals
      (State awaiting_ctx []) in
  startswith status_marker f = true
  /\ run [] = (Ok (Locals [Entry assistant f] [] None []),
               State awaiting_ctx [Call (OpReplyText status_marker) true])
  /\ f <> status_marker
  /\ (forall ok, ~ In (Call (OpReplyText f) ok) (trace (snd (run []))))
  /\ run [0] = (Raise TransportError,
                State awaiting_ctx [Call (OpReplyText status_marker) false]).
Proof.
  vm_compute. repeat split; try discriminate.
  intros ok [H|[]]. discriminate.
Qed.

(** ** Image fragments *)

(** C5 at a fragment with two separators.  The content
    [![a](b](c)] starts with [![], contains [](] and ends with [)], so it
    takes the image branch; [split("](")[1]] is the piece between the two
    separators, ["b"], and [[:-1]] removes its last character: the photo is
    sent with the empty URL, not with the text between [](] and the
    trailing [)]. *)
Theorem C5_second_separator_truncates_url :
  let f := lit "![a](b](c)" in
  is_image f = true
  /\ split (lit "](") f = [lit "![a"; lit "b"; lit "c)"]
  /\ on_event (sample_world Exhausted 3 0 []) (lit "q") (delta f) no_locals
       (State awaiting_ctx [])
     = (Ok (Locals [Entry assistant f] [] None []),
        State awaiting_ctx [Call (OpReplyPhoto []) true]).
Proof. vm_compute. repeat split. Qed.

(** ** User resolution *)

Lemma initialize_user_data_unresolved w tg name s :
  get_or_create_user w tg name = Returns None ->
  initialize_user_data w tg name s =
  (Ok tt, extend s [Call (OpGetOrCreateUser tg name) true; Call OpLogError true]).
Proof.
  intros Hu.
  unfold initialize_user_data, backend, bind, log_error, record, ret, extend.
  rewrite Hu. simpl. rewrite <- app_assoc. reflexivity.
Qed.

(** On a first contact the session has no [daily_count]: when the user
    cannot be resolved, [start] raises [KeyError] after the error log and
    sends nothing. *)
Lemma start_unresolved_first_contact w u ln s :
  last_name u = Some ln ->
  get_or_create_user w (effective_user_id u) (first_name u ++ lit " " ++ ln)
  = Returns None ->
  daily_count (ctx s) = None ->
  start w u s =
  (Raise (KeyError (lit "daily_count")),
   extend s [Call OpPrint true;
             Call (OpGetOrCreateUser (effective_user_id u)
                     (first_name u ++ lit " " ++ ln)) true;
             Call OpLogError true]).
Proof.
  intros Hln Hu Hd. unfold start, bind at 1, record.
  unfold bind at 1, full_name. rewrite Hln. unfold ret at 1.
  unfold bind at 1. rewrite (initialize_user_data_unresolved _ _ _ _ Hu).
  unfold bind at 1, subscript, bind at 1, get_ctx.
  cbn [ctx extend]. rewrite Hd. unfold raise, extend. cbn [ctx trace].
  rewrite <- app_assoc. reflexivity.
Qed.

(** C9 at a failing user resolution.  When [get_or_create_user] returns
    nothing, [initialize_user_data] logs and returns, and its callers go
    on: on a first contact (empty session context) [start] raises
    [KeyError('daily_count')] without any reply; on a session that has a
    cached count, [start] prompts for the question and sets
    [waiting_for_question], and [handle_message] creates a project and
    opens the stream.  No system-error reply is sent in any of them. *)
Theorem C9_unresolved_user_not_reported :
  let w := unresolved_world in
  let u := sample_update in
  let resolve :=
    [Call (OpGetOrCreateUser (lit "42") (lit "San Zhang")) true;
     Call OpLogError true] in
  start w u (State empty_user_data [])
  = (Raise (KeyError (lit "daily_count")),
     State empty_user_data (Call OpPrint true :: resolve))
  /\ start w u (State awaiting_ctx [])
     = (Ok tt,
        State awaiting_ctx
          (Call OpPrint true :: resolve
           ++ [Call (OpReplyText question_prompt) true]))
  /\ handle_message w u (State awaiting_ctx [])
     = (Ok tt,
        State (UserData (Some 3%Z) (Some 3%Z) (Some (lit "2024-05-01"))
                 (Some (lit "u1")) (Some false))
          (resolve
           ++ [Call (OpCreateProject (lit "u1") (text u)) true;
               Call (OpChatStream (lit "bot") (lit "p1") (text u)) true])).
Proof. vm_compute. repeat split. Qed.

(** ** The calls of the stream loop *)

Lemma extend_nil s : extend s [] = s.
Proof. destruct s. unfold extend. simpl. now rewrite app_nil_r. Qed.

Lemma extend_extend s a b : extend (extend s a) b = extend s (a ++ b).
Proof. unfold extend. simpl. now rewrite app_assoc. Qed.

(** Case analysis on what [on_event] does with the event [ev]. *)
Ltac step_cases w ev l s :=
  rewrite on_event_cases; cbv zeta;
  destruct (is_message_delta (ev_event ev)) eqn:Hdelta;
  [ destruct (is_image (ev_content ev)) eqn:Himage;
    [ destruct (nth_error (split (lit "](") (ev_content ev)) 1) eqn:Hpiece
    | destruct (is_status (ev_content ev)) eqn:Hstatus;
      [ | destruct (message l) eqn:Hmessage;
          [ destruct (BUFFER_SIZE <=? length (content_buffer l ++ ev_content ev))
              eqn:Hfull | ] ] ]
  | ];
  try match goal with
      | |- context [delivers w (length (trace s))] =>
          destruct (delivers w (length (trace s))) eqn:Hok
      end.

Lemma on_event_trace w q ev l s :
  exists new,
    snd (on_event w q ev l s) = extend s new /\ Forall (stream_call q) new.
Proof.
  step_cases w ev l s; cbn [snd];
    try (exists []; split; [symmetry; apply extend_nil|constructor]);
    eexists; (split; [reflexivity|]);
    repeat (apply Forall_cons || apply Forall_nil);
    unfold stream_call; cbn [call_op];
    solve [exact I | left; reflexivity | right; eexists; reflexivity].
Qed.

Lemma consume_trace w q evs l s :
  exists new,
    snd (consume w q evs l s) = extend s new /\ Forall (stream_call q) new.
Proof.
  revert l s. induction evs as [| |ev rest IH]; intros l s.
  - exists []. split; [symmetry; apply extend_nil|constructor].
  - exists []. split; [symmetry; apply extend_nil|constructor].
  - rewrite consume_yield.
    destruct (on_event_trace w q ev l s) as (new1 & H1 & F1).
    destruct (on_event w q ev l s) as [[l'|e] s1]; cbn [snd] in H1; subst s1.
    + destruct (IH l' (extend s new1)) as (new2 & H2 & F2).
      exists (new1 ++ new2). rewrite H2, extend_extend.
      split; [reflexivity|]. apply Forall_app. now split.
    + exists new1. now split.
Qed.

Lemma sent_handle_extend l s new :
  sent_handle l s -> sent_handle l (extend s new).
Proof.
  intros H h Hh. destruct (H h Hh) as (t & Ht). exists t.
  unfold extend. cbn [trace]. rewrite nth_error_app1; [exact Ht|].
  apply nth_error_Some. congruence.
Qed.

Lemma on_event_ok w q ev l s l' s' :
  on_event w q ev l s = (Ok l', s') ->
  sent_handle l s ->
  sent_handle l' s' /\ messages l' = messages l ++ special_entry ev.
Proof.
  unfold special_entry.
  step_cases w ev l s; intros H Hs; inversion H; subst; clear H;
    cbn [messages message orb]; rewrite ?app_nil_r;
    (split; [|reflexivity]);
    try (apply sent_handle_extend; intros h Hh; cbn [message] in Hh;
         rewrite <- ?Hmessage in Hh; now apply Hs);
    try (intros h Hh; cbn [message] in Hh; rewrite <- ?Hmessage in Hh;
         now apply Hs).
  intros h Hh. cbn [message] in Hh. injection Hh as <-.
  eexists. unfold extend. cbn [trace].
  rewrite nth_error_app2 by lia. rewrite Nat.sub_diag. reflexivity.
Qed.

Lemma special_entries_yield ev rest :
  special_entries (Yield ev rest) = special_entry ev ++ special_entries rest.
Proof.
  unfold special_entries, special_entry. cbn [fragments].
  destruct (is_message_delta (ev_event ev)); [|reflexivity].
  cbn [filter]. destruct (is_image _ || is_status _); reflexivity.
Qed.

Lemma consume_ok w q evs l s l' s' :
  consume w q evs l s = (Ok l', s') ->
  sent_handle l s ->
  completes evs = true
  /\ sent_handle l' s'
  /\ messages l' = messages l ++ special_entries evs.
Proof.
  revert l s. induction evs as [| |ev rest IH]; intros l s H Hs.
  - inversion H; subst. cbn. rewrite app_nil_r. auto.
  - discriminate.
  - rewrite consume_yield in H.
    destruct (on_event w q ev l s) as [[l1|e] s1] eqn:E; [|discriminate].
    destruct (on_event_ok _ _ _ _ _ _ _ E Hs) as (Hs1 & Hm1).
    destruct (IH _ _ H Hs1) as (Hc & Hs' & Hm').
    repeat split; [exact Hc|exact Hs'|].
    rewrite Hm', Hm1, special_entries_yield, app_assoc. reflexivity.
Qed.

(** ** The end of the stream *)

Lemma flush_cases w pid l s :
  flush w pid l s =
  match message l with
  | Some h =>
      if nonempty (content_buffer l) then
        let tb := text_buffer l ++ content_buffer l in
        let msgs := messages l ++ [Entry assistant tb] in
        let saved := returned (update_project_messages w pid msgs) in
        (Ok tt,
         extend s
           (if delivers w (length (trace s))
            then Call (OpEditText h tb) true
                 :: Call (OpUpdateProjectMessages pid msgs) saved
                 :: (if saved then [] else [Call OpLogWarning true])
            else [Call (OpEditText h tb) false; Call OpLogWarning true]))
      else (Ok tt, s)
  | None => (Ok tt, s)
  end.
Proof.
  unfold flush. destruct (message l) as [h|]; [|reflexivity].
  destruct (nonempty (content_buffer l)); [|reflexivity]. cbv zeta.
  unfold try_except, edit_text, transport, backend, log_warning, record,
    bind, ret, raise, extend.
  destruct (delivers w _); cbn [ctx trace].
  - destruct (update_project_messages w pid _) as [[]|]; cbn [returned ctx trace];
      rewrite <- ?app_assoc; reflexivity.
  - rewrite <- app_assoc. reflexivity.
Qed.

Lemma stream_answer_cases w q pid s :
  stream_answer w q pid s =
  match consume w q (chat_stream w (BOT_ID w) pid q) no_locals
          (extend s [Call (OpChatStream (BOT_ID w) pid q) true]) with
  | (Ok l, s1) => flush w pid l s1
  | (Raise e, s1) => (Raise e, s1)
  end.
Proof. reflexivity. Qed.

Lemma answer_question_cases w q pid s :
  answer_question w q pid s =
  match stream_answer w q pid s with
  | (Ok tt, s1) => (Ok tt, s1)
  | (Raise e, s1) =>
      let ok := delivers w (S (length (trace s1))) in
      (if ok then Ok tt else Raise TransportError,
       extend s1 [Call OpLogError true; Call (OpReplyText failure_notice) ok])
  end.
Proof.
  unfold answer_question, try_except.
  destruct (stream_answer w q pid s) as [[[]|e] s1]; [reflexivity|].
  unfold bind, log_error, record, reply_text, transport, ret, extend.
  cbn [ctx trace]. rewrite length_app, Nat.add_1_r. cbn [length].
  rewrite <- app_assoc. destruct (delivers w _); reflexivity.
Qed.

Lemma count_ops_app p a b : count_ops p (a ++ b) = count_ops p a + count_ops p b.
Proof. unfold count_ops. now rewrite filter_app, length_app. Qed.

Lemma count_ops_none p tr :
  Forall (fun c => p (call_op c) = false) tr -> count_ops p tr = 0.
Proof.
  unfold count_ops. induction 1 as [|c tr Hc _ IH]; [reflexivity|].
  cbn [filter]. now rewrite Hc.
Qed.

Lemma answer_text_head q b : hd_error (answer_text q b) = Some 24744%N.
Proof. reflexivity. Qed.

Lemma answer_text_not_failure q b : pystr_eqb (answer_text q b) failure_notice = false.
Proof.
  unfold pystr_eqb. destruct (list_eq_dec _ _ _) as [E|]; [|reflexivity].
  pose proof (answer_text_head q b) as H. rewrite E in H.
  vm_compute in H. discriminate.
Qed.

Lemma stream_call_quiet q new :
  Forall (stream_call q) new ->
  count_ops (is_reply_of failure_notice) new = 0
  /\ count_ops is_update new = 0
  /\ count_ops is_chat_stream new = 0
  /\ count_ops is_create_project new = 0.
Proof.
  intros H. repeat split; apply count_ops_none;
    (eapply Forall_impl; [|exact H]); intros [o ok]; unfold stream_call;
    cbn [call_op]; destruct o; try tauto; try reflexivity.
  cbn [is_reply_of]. intros [->|[b ->]]; [reflexivity|].
  apply answer_text_not_failure.
Qed.

Lemma flush_returns w pid l s : fst (flush w pid l s) = Ok tt.
Proof.
  rewrite flush_cases. destruct (message l); [|reflexivity].
  destruct (nonempty _); reflexivity.
Qed.

Lemma stream_answer_raises w q pid s e s1 :
  stream_answer w q pid s = (Raise e, s1) ->
  exists new,
    s1 = extend s (Call (OpChatStream (BOT_ID w) pid q) true :: new)
    /\ Forall (stream_call q) new.
Proof.
  rewrite stream_answer_cases. intros H.
  destruct (consume_trace w q (chat_stream w (BOT_ID w) pid q) no_locals
              (extend s [Call (OpChatStream (BOT_ID w) pid q) true]))
    as (new & Hn & F).
  destruct (consume _ _ _ _ _) as [[l|e'] s'] eqn:E.
  - pose proof (flush_returns w pid l s') as Hf. rewrite H in Hf. discriminate.
  - inversion H; subst. cbn [snd] in Hn. exists new.
    rewrite Hn, extend_extend. now split.
Qed.

Lemma answer_question_on_raise w q pid s e s1 :
  stream_answer w q pid s = (Raise e, s1) ->
  exists new (ok : bool),
    snd (answer_question w q pid s) = extend s new
    /\ fst (answer_question w q pid s)
       = (if ok then Ok tt else Raise TransportError)
    /\ last new (Call OpPrint true) = Call (OpReplyText failure_notice) ok
    /\ count_ops (is_reply_of failure_notice) new = 1
    /\ count_ops is_update new = 0.
Proof.
  intros H. destruct (stream_answer_raises _ _ _ _ _ _ H) as (new & -> & F).
  destruct (stream_call_quiet _ _ F) as (Hr & Hu & _ & _).
  rewrite answer_question_cases, H. cbv zeta. cbn [fst snd].
  set (ok := delivers w _). rewrite extend_extend.
  set (opened := Call (OpChatStream (BOT_ID w) pid q) true).
  change (opened :: new) with ([opened] ++ new).
  eexists. exists ok. split; [reflexivity|]. split; [reflexivity|].
  split; [|split].
  - change [Call OpLogError true; Call (OpReplyText failure_notice) ok]
      with ([Call OpLogError true] ++ [Call (OpReplyText failure_notice) ok]).
    rewrite !app_assoc. apply last_last.
  - rewrite !count_ops_app, Hr. reflexivity.
  - rewrite !count_ops_app, Hu. reflexivity.
Qed.

(** A stream that raises makes the body of the outer [try] raise. *)
Lemma stream_failure_escapes w q pid s :
  completes (chat_stream w (BOT_ID w) pid q) = false ->
  exists e s1, stream_answer w q pid s = (Raise e, s1).
Proof.
  intros Hc. rewrite stream_answer_cases.
  destruct (consume _ _ _ _ _) as [[l|e] s1] eqn:E; [|eauto].
  assert (Hinit : sent_handle no_locals
                    (extend s [Call (OpChatStream (BOT_ID w) pid q) true])).
  { intros h Hh. discriminate. }
  destruct (consume_ok _ _ _ _ _ _ _ E Hinit) as (Hc' & _). congruence.
Qed.

(** The scenario of the specification: the chat backend raises
    mid-stream; the user gets one generic failure reply and the project is
    not updated. *)
Lemma stream_failure_reported_once w q pid s :
  completes (chat_stream w (BOT_ID w) pid q) = false ->
  exists new (ok : bool),
    snd (answer_question w q pid s) = extend s new
    /\ last new (Call OpPrint true) = Call (OpReplyText failure_notice) ok
    /\ count_ops (is_reply_of failure_notice) new = 1
    /\ count_ops is_update new = 0.
Proof.
  intros Hc. destruct (stream_failure_escapes w q pid s Hc) as (e & s1 & H).
  destruct (answer_question_on_raise _ _ _ _ _ _ H)
    as (new & ok & H1 & _ & H2 & H3 & H4).
  exists new, ok. auto.
Qed.

(** C8, as the source has it.  When the body of the outer [try] raises
    (the stream fails, or a photo send, a status send or the first text
    send raises; a failing edit does not count, it is caught where it
    occurs), the handler logs the error and issues the generic failure
    reply as its last call; that reply is the only one of its kind and
    [update_project_messages] is not called for the question. *)
Theorem C8_escaping_failure_reported_once w q pid s e s1 :
  stream_answer w q pid s = (Raise e, s1) ->
  exists new (ok : bool),
    snd (answer_question w q pid s) = extend s new
    /\ fst (answer_question w q pid s)
       = (if ok then Ok tt else Raise TransportError)
    /\ last new (Call OpPrint true) = Call (OpReplyText failure_notice) ok
    /\ count_ops (is_reply_of failure_notice) new = 1
    /\ count_ops is_update new = 0.
Proof.
  intros H.
  destruct (answer_question_on_raise _ _ _ _ _ _ H)
    as (new & ok & H1 & H2 & H3 & H4 & H5).
  exists new, ok. repeat split; assumption.
Qed.

Lemma C8_escaping_failure_witness :
  let w := sample_world (Yield (delta (lit "卦")) Fails) 3 0 [] in
  exists new (ok : bool),
    snd (answer_question w (lit "q") (lit "p1") (State awaiting_ctx []))
    = extend (State awaiting_ctx []) new
    /\ fst (answer_question w (lit "q") (lit "p1") (State awaiting_ctx []))
       = (if ok then Ok tt else Raise TransportError)
    /\ last new (Call OpPrint true) = Call (OpReplyText failure_notice) ok
    /\ count_ops (is_reply_of failure_notice) new = 1
    /\ count_ops is_update new = 0.
Proof.
  eapply (C8_escaping_failure_reported_once
            (sample_world (Yield (delta (lit "卦")) Fails) 3 0 [])
            (lit "q") (lit "p1") (State awaiting_ctx []) StreamError).
  vm_compute. reflexivity.
Defined.

(** C8 as stated fails: the edit issued as call 6 raises during stream
    consumption, after the project was created; the exception is caught
    in the loop, the user gets no failure reply and the project is
    updated at the end of the stream. *)
Lemma C8_counterexample :
  let evs :=
    stream_of [delta (lit "卦"); delta (repeat 97%N 30); delta (lit "吉")] in
  let run :=
    handle_message (sample_world evs 3 0 [6]) sample_update
      (State awaiting_ctx []) in
  (exists uid q, nth_error (trace (snd run)) 3
                 = Some (Call (OpCreateProject uid q) true))
  /\ (exists h t, nth_error (trace (snd run)) 6
                  = Some (Call (OpEditText h t) false))
  /\ count_ops (is_reply_of failure_notice) (trace (snd run)) = 0
  /\ count_ops is_update (trace (snd run)) = 1.
Proof.
  vm_compute. split; [|split; [|split]]; try reflexivity; eauto.
Qed.

(** ** The shape of a run of [handle_message] *)

Lemma quiet_from_refl s : quiet_from s s.
Proof. exists []. now rewrite app_nil_r. Qed.

Lemma quiet_from_trans s1 s2 s3 :
  quiet_from s1 s2 -> quiet_from s2 s3 -> quiet_from s1 s3.
Proof.
  intros (n1 & H1 & F1) (n2 & H2 & F2). exists (n1 ++ n2).
  rewrite H2, H1, app_assoc. split; [reflexivity|]. now apply Forall_app.
Qed.

Lemma stays_quiet_ret {A} (a : A) : stays_quiet (ret a).
Proof. intros s. apply quiet_from_refl. Qed.

Lemma stays_quiet_raise {A} e : stays_quiet (@raise A e).
Proof. intros s. apply quiet_from_refl. Qed.

Lemma stays_quiet_get_ctx : stays_quiet get_ctx.
Proof. intros s. apply quiet_from_refl. Qed.

Lemma stays_quiet_put_ctx c : stays_quiet (put_ctx c).
Proof. intros s. exists []. cbn. now rewrite app_nil_r. Qed.

Lemma stays_quiet_bind {A B} (m : M A) (k : A -> M B) :
  stays_quiet m -> (forall a, stays_quiet (k a)) -> stays_quiet (bind m k).
Proof.
  intros Hm Hk s. unfold bind. specialize (Hm s).
  destruct (m s) as [[a|e] s1]; cbn [snd] in *; [|exact Hm].
  eapply quiet_from_trans; [exact Hm|apply Hk].
Qed.

Lemma stays_quiet_record o ok : quiet (Call o ok) -> stays_quiet (record o ok).
Proof. intros H s. exists [Call o ok]. cbn. auto. Qed.

Lemma stays_quiet_transport w o :
  is_outbound o = true -> stays_quiet (transport w o).
Proof.
  intros H s. eexists. cbn. split; [reflexivity|].
  constructor; [|constructor]. destruct o; try discriminate; split; reflexivity.
Qed.

Lemma stays_quiet_backend {A} o (r : outcome A) :
  quiet (Call o (returned r)) -> stays_quiet (backend o r).
Proof.
  intros H. unfold backend. apply stays_quiet_bind.
  - now apply stays_quiet_record.
  - intros _. destruct r; [apply stays_quiet_ret|apply stays_quiet_raise].
Qed.

Lemma stays_quiet_subscript {A} key (f : user_data -> option A) :
  stays_quiet (subscript key f).
Proof.
  unfold subscript. apply stays_quiet_bind; [apply stays_quiet_get_ctx|].
  intros c. destruct (f c); [apply stays_quiet_ret|apply stays_quiet_raise].
Qed.

Lemma stays_quiet_initialize w tg name :
  stays_quiet (initialize_user_data w tg name).
Proof.
  unfold initialize_user_data. cbv zeta.
  apply stays_quiet_bind; [apply stays_quiet_backend; split; reflexivity|].
  intros [uid|]; [|apply stays_quiet_record; split; reflexivity].
  apply stays_quiet_bind; [apply stays_quiet_backend; split; reflexivity|].
  intros limit.
  apply stays_quiet_bind; [apply stays_quiet_backend; split; reflexivity|].
  intros used.
  apply stays_quiet_bind; [apply stays_quiet_get_ctx|].
  intros c. apply stays_quiet_put_ctx.
Qed.

Create HintDb quiet.

#[local] Hint Resolve stays_quiet_ret stays_quiet_raise stays_quiet_get_ctx
  stays_quiet_put_ctx stays_quiet_subscript stays_quiet_initialize : quiet.

Lemma reaches_stream_quiet w q (m : M unit) :
  stays_quiet m -> reaches_stream w q m.
Proof. intros H s. left. apply H. Qed.

Lemma reaches_stream_bind {A} w q (m : M A) (k : A -> M unit) :
  stays_quiet m -> (forall a, reaches_stream w q (k a)) ->
  reaches_stream w q (bind m k).
Proof.
  intros Hm Hk s. unfold bind. specialize (Hm s).
  destruct (m s) as [[a|e] s1]; cbn [snd] in *; [|left; exact Hm].
  destruct (Hk a s1) as [H|(pre & c' & uid & pid & F & Hc & E)].
  - left. eapply quiet_from_trans; eassumption.
  - right. destruct Hm as (new & Hn & Fn).
    exists (new ++ pre), c', uid, pid. split; [now apply Forall_app|].
    split; [exact Hc|]. rewrite E, Hn, <- !app_assoc. reflexivity.
Qed.

Lemma handle_message_reaches_stream w u :
  reaches_stream w (text u) (handle_message w u).
Proof.
  assert (Hreply : forall txt, stays_quiet (reply_text w txt ;;; ret tt)).
  { intros txt. apply stays_quiet_bind; [now apply stays_quiet_transport|].
    auto with quiet. }
  unfold handle_message.
  apply reaches_stream_bind; [auto with quiet|]. intros c.
  destruct (truthy (waiting_for_question c));
    [|apply reaches_stream_quiet, Hreply].
  apply reaches_stream_bind.
  { unfold full_name. destruct (last_name u); auto with quiet. }
  intros name.
  apply reaches_stream_bind; [auto with quiet|]. intros _.
  apply reaches_stream_bind; [auto with quiet|]. intros remaining.
  destruct (remaining <=? 0)%Z; [apply reaches_stream_quiet, Hreply|].
  cbv zeta.
  apply reaches_stream_bind.
  { unfold set_waiting. apply stays_quiet_bind; auto with quiet. }
  intros _.
  apply reaches_stream_bind; [auto with quiet|]. intros uid.
  intros s. unfold backend, record, bind, ret, raise. cbn [ctx trace].
  destruct (create_project w uid (text u)) as [[pid|]|] eqn:E; cbn [returned].
  - right. exists [], (ctx s), uid, pid. repeat split; [constructor|exact E].
  - left. unfold reply_text, transport. cbn [snd trace ctx].
    exists [Call (OpCreateProject uid (text u)) true;
            Call (OpReplyText system_error)
              (delivers w (length (trace s ++ [Call (OpCreateProject uid (text u)) true])))].
    split; [|repeat constructor].
    destruct (delivers w _); cbn [snd trace]; rewrite <- app_assoc; reflexivity.
  - left. cbn [snd trace]. eexists. split; [reflexivity|]. repeat constructor.
Qed.

Lemma stream_call_is_quiet q c : stream_call q c -> quiet c.
Proof.
  destruct c as [o ok]. unfold stream_call, quiet. cbn [call_op].
  destruct o; try tauto; intros _; split; reflexivity.
Qed.

Lemma answer_question_shape w q pid s :
  let evs := chat_stream w (BOT_ID w) pid q in
  let opened := Call (OpChatStream (BOT_ID w) pid q) true in
  exists mid tail,
    snd (answer_question w q pid s) = extend s (opened :: mid ++ tail)
    /\ Forall quiet mid
    /\ (Forall quiet tail
        \/ exists h first final post,
             let msgs := special_entries evs ++ [Entry assistant final] in
             let saved := returned (update_project_messages w pid msgs) in
             completes evs = true
             /\ nth_error (trace s ++ opened :: mid) h
                = Some (Call (OpReplyText first) true)
             /\ tail = Call (OpEditText h final) true
                       :: Call (OpUpdateProjectMessages pid msgs) saved :: post
             /\ Forall (fun x => is_outbound (call_op x) = false) post
             /\ Forall quiet post).
Proof.
  cbv zeta. rewrite answer_question_cases, stream_answer_cases.
  set (evs := chat_stream w (BOT_ID w) pid q).
  set (opened := Call (OpChatStream (BOT_ID w) pid q) true).
  destruct (consume_trace w q evs no_locals (extend s [opened]))
    as (mid & Hmid & Fmid).
  assert (Qmid : Forall quiet mid).
  { eapply Forall_impl; [|exact Fmid]. apply stream_call_is_quiet. }
  exists mid.
  destruct (consume w q evs no_locals (extend s [opened])) as [[l|e] s1] eqn:E;
    cbn [snd] in Hmid; subst s1; rewrite extend_extend in *; cbn [app] in *.
  2:{ eexists. cbv zeta. cbn [snd]. rewrite extend_extend. cbn [app].
      split; [reflexivity|]. split; [exact Qmid|]. left.
      repeat constructor. }
  assert (Hinit : sent_handle no_locals (extend s [opened])).
  { intros h Hh. discriminate. }
  destruct (consume_ok w q evs no_locals _ l _ E Hinit) as (Hc & Hs & Hm).
  cbn [messages no_locals app] in Hm.
  rewrite flush_cases.
  destruct (message l) as [h|] eqn:Hh.
  2:{ exists []. cbn [snd]. rewrite app_nil_r. repeat split; auto. }
  destruct (nonempty (content_buffer l)).
  2:{ exists []. cbn [snd]. rewrite app_nil_r. repeat split; auto. }
  cbv zeta. rewrite Hm.
  set (final := text_buffer l ++ content_buffer l).
  set (msgs := special_entries evs ++ [Entry assistant final]).
  set (saved := returned (update_project_messages w pid msgs)).
  destruct (delivers w _).
  - eexists. cbn [snd]. rewrite extend_extend. cbn [app].
    split; [reflexivity|]. split; [exact Qmid|]. right.
    destruct (Hs h Hh) as (first & Hfirst). cbn [extend trace] in Hfirst.
    exists h, first, final, (if saved then [] else [Call OpLogWarning true]).
    cbv zeta. split; [exact Hc|]. split; [exact Hfirst|].
    split; [reflexivity|].
    destruct saved; split; repeat constructor.
  - eexists. cbn [snd]. rewrite extend_extend. cbn [app].
    split; [reflexivity|]. split; [exact Qmid|]. left. repeat constructor.
Qed.

Lemma no_occurrence {A} (p : A -> bool) tr pre y post :
  Forall (fun z => p z = false) tr -> tr = pre ++ y :: post -> p y = true ->
  False.
Proof.
  intros F -> Hy. apply Forall_app in F as [_ F].
  inversion F; subst. congruence.
Qed.

Lemma unique_occurrence {A} (p : A -> bool) a x b pre y post :
  a ++ x :: b = pre ++ y :: post ->
  Forall (fun z => p z = false) a ->
  Forall (fun z => p z = false) b ->
  p y = true ->
  pre = a /\ y = x /\ post = b.
Proof.
  revert pre. induction a as [|z a IH]; intros pre E Fa Fb Hy.
  - destruct pre as [|z pre]; cbn in E.
    + injection E as -> ->. auto.
    + injection E as -> E. exfalso. exact (no_occurrence p b pre y post Fb E Hy).
  - inversion Fa as [|? ? Hz Fa']; subst.
    destruct pre as [|z' pre]; cbn in E.
    + injection E as -> _. congruence.
    + injection E as -> E. destruct (IH pre E Fa' Fb Hy) as (-> & -> & ->). auto.
Qed.

Lemma quiet_no_stream tr :
  Forall quiet tr -> Forall (fun z => is_chat_stream (call_op z) = false) tr.
Proof. apply Forall_impl. intros z [H _]. exact H. Qed.

Lemma quiet_no_update tr :
  Forall quiet tr -> Forall (fun z => is_update (call_op z) = false) tr.
Proof. apply Forall_impl. intros z [_ H]. exact H. Qed.

(** C4. In every run of [handle_message]: the chat-completion stream is
    opened only after [create_project] returned the project whose id the
    stream call carries; [update_project_messages] is called at most once;
    and when it is called, the stream has ended without raising, the text
    message of the answer was sent successfully and was just edited to its
    final text, the list passed is the whole transcript (the entries of the
    image and status fragments followed by the final text), the call's
    outcome is the backend's, and nothing is sent or edited afterwards. *)
Theorem C4_project_created_first_updated_once w u c :
  let tr := trace (snd (handle_message w u (State c []))) in
  (forall pre x post,
     tr = pre ++ x :: post -> is_chat_stream (call_op x) = true ->
     exists uid pid,
       x = Call (OpChatStream (BOT_ID w) pid (text u)) true
       /\ create_project w uid (text u) = Returns (Some pid)
       /\ In (Call (OpCreateProject uid (text u)) true) pre)
  /\ count_ops is_update tr <= 1
  /\ (forall pre pid msgs saved post,
        tr = pre ++ Call (OpUpdateProjectMessages pid msgs) saved :: post ->
        let evs := chat_stream w (BOT_ID w) pid (text u) in
        exists uid h first final,
          create_project w uid (text u) = Returns (Some pid)
          /\ completes evs = true
          /\ nth_error pre h = Some (Call (OpReplyText first) true)
          /\ last pre (Call OpPrint true) = Call (OpEditText h final) true
          /\ msgs = special_entries evs ++ [Entry assistant final]
          /\ saved = returned (update_project_messages w pid msgs)
          /\ Forall (fun x => is_outbound (call_op x) = false) post).
Proof.
  cbv zeta.
  destruct (handle_message_reaches_stream w u (State c []))
    as [(new & Hn & Q)|(pre0 & c' & uid & pid & F0 & Hc & E)].
  - cbn [trace app] in Hn. rewrite Hn. split; [|split].
    + intros pre x post Ht Hx. exfalso.
      exact (no_occurrence _ _ _ _ _ (quiet_no_stream _ Q) Ht Hx).
    + rewrite (count_ops_none _ _ (quiet_no_update _ Q)). lia.
    + intros pre pid msgs saved post Ht. exfalso.
      exact (no_occurrence (fun z => is_update (call_op z)) _ _ _ _
               (quiet_no_update _ Q) Ht eq_refl).
  - rewrite E. cbn [trace app].
    set (created := Call (OpCreateProject uid (text u)) true).
    destruct (answer_question_shape w (text u) pid
                (State c' (pre0 ++ [created])))
      as (mid & tail & Hs & Qmid & Htail).
    rewrite Hs. unfold extend. cbn [trace].
    set (opened := Call (OpChatStream (BOT_ID w) pid (text u)) true) in *.
    assert (Qpre : Forall quiet (pre0 ++ [created])).
    { apply Forall_app. split; [exact F0|]. repeat constructor. }
    assert (Stail : Forall (fun z => is_chat_stream (call_op z) = false) tail).
    { destruct Htail as [Q|(h & first & final & post & _ & _ & -> & _ & Q)].
      - now apply quiet_no_stream.
      - constructor; [reflexivity|]. constructor; [reflexivity|].
        now apply quiet_no_stream. }
    split; [|split].
    + intros pre x post Ht Hx.
      destruct (unique_occurrence (fun z => is_chat_stream (call_op z))
                  _ _ _ _ _ _ Ht (quiet_no_stream _ Qpre)
                  ltac:(apply Forall_app; split;
                        [now apply quiet_no_stream|exact Stail]) Hx)
        as (-> & -> & _).
      exists uid, pid. split; [reflexivity|]. split; [exact Hc|].
      apply in_or_app. right. now left.
    + change (opened :: mid ++ tail) with ([opened] ++ mid ++ tail).
      rewrite !count_ops_app.
      rewrite (count_ops_none _ _ (quiet_no_update _ F0)).
      rewrite (count_ops_none _ _ (quiet_no_update _ Qmid)).
      change (count_ops is_update [created]) with 0.
      change (count_ops is_update [opened]) with 0.
      destruct Htail as [Q|(h & first & final & post & _ & _ & -> & _ & Q)].
      * rewrite (count_ops_none _ _ (quiet_no_update _ Q)). cbn. lia.
      * change (?a :: ?b :: post) with ([a; b] ++ post).
        rewrite count_ops_app.
        rewrite (count_ops_none _ _ (quiet_no_update _ Q)). cbn. lia.
    + intros pre pid' msgs saved post Ht.
      destruct Htail as [Q|(h & first & final & post0 & Hcomp & Hfirst & -> & Hout & Q)].
      * exfalso.
        refine (no_occurrence (fun z => is_update (call_op z)) _ _ _ _ _ Ht eq_refl).
        apply Forall_app. split; [now apply quiet_no_update|].
        constructor; [reflexivity|]. apply Forall_app.
        split; now apply quiet_no_update.
      * cbv zeta in Hcomp, Hfirst.
        set (edit := Call (OpEditText h final) true) in *.
        assert (Ht' : ((pre0 ++ [created]) ++ opened :: mid ++ [edit])
                      ++ Call (OpUpdateProjectMessages pid
                                 (special_entries
                                    (chat_stream w (BOT_ID w) pid (text u))
                                  ++ [Entry assistant final]))
                           (returned
                              (update_project_messages w pid
                                 (special_entries
                                    (chat_stream w (BOT_ID w) pid (text u))
                                  ++ [Entry assistant final])))
                         :: post0
                      = pre ++ Call (OpUpdateProjectMessages pid' msgs) saved
                               :: post).
        { rewrite <- Ht. rewrite <- !app_assoc. cbn [app].
          rewrite <- !app_assoc. reflexivity. }
        destruct (unique_occurrence (fun z => is_update (call_op z))
                    _ _ _ _ _ _ Ht') as (-> & Hupd & ->).
        { apply Forall_app. split; [now apply quiet_no_update|].
          constructor; [reflexivity|]. apply Forall_app.
          split; [now apply quiet_no_update|]. repeat constructor. }
        { now apply quiet_no_update. }
        { reflexivity. }
        injection Hupd as -> -> ->.
        exists uid, h, first, final.
        split; [exact Hc|]. split; [exact Hcomp|]. split; [|split].
        -- change (opened :: mid ++ [edit]) with ((opened :: mid) ++ [edit]).
           rewrite app_assoc. rewrite nth_error_app1; [exact Hfirst|].
           apply nth_error_Some. cbn [trace] in Hfirst. congruence.
        -- change (opened :: mid ++ [edit]) with ((opened :: mid) ++ [edit]).
           rewrite app_assoc. apply last_last.
        -- repeat split. exact Hout.
Qed.

(** ** Counting sends and edits on plain streams *)

Lemma plain_stream_yield ev rest :
  plain_stream (Yield ev rest) = true ->
  plain_stream rest = true
  /\ (is_message_delta (ev_event ev) = true ->
      is_image (ev_content ev) = false /\ is_status (ev_content ev) = false).
Proof.
  unfold plain_stream. cbn [fragments].
  destruct (is_message_delta (ev_event ev)).
  - cbn [forallb]. intros H. apply andb_true_iff in H as [H1 H2].
    split; [exact H2|]. intros _. unfold is_plain in H1.
    apply andb_true_iff in H1 as [Ha Hb].
    split; now apply negb_true_iff.
  - intros H. split; [exact H|discriminate].
Qed.

Lemma total_fragment_length_yield ev rest :
  total_fragment_length (Yield ev rest) =
  (if is_message_delta (ev_event ev) then length (ev_content ev) else 0)
  + total_fragment_length rest.
Proof.
  unfold total_fragment_length. cbn [fragments].
  destruct (is_message_delta (ev_event ev)); [|reflexivity].
  cbn [concat]. now rewrite length_app.
Qed.

Lemma consume_plain_counts w q evs :
  plain_stream evs = true ->
  forall l s,
  exists new,
    snd (consume w q evs l s) = extend s new
    /\ count_ops is_reply_text new
       = match message l, fragments evs with
         | None, _ :: _ => 1
         | _, _ => 0
         end
    /\ count_ops is_outbound new
       = count_ops is_reply_text new + count_ops is_edit new
    /\ match fst (consume w q evs l s) with
       | Ok l' =>
           BUFFER_SIZE * count_ops is_edit new + length (content_buffer l')
           <= length (content_buffer l) + total_fragment_length evs
       | Raise _ =>
           BUFFER_SIZE * count_ops is_edit new
           <= length (content_buffer l) + total_fragment_length evs
       end.
Proof.
  induction evs as [| |ev rest IH]; intros Hp l s.
  - exists []. rewrite extend_nil. cbn. destruct (message l); repeat split; lia.
  - exists []. rewrite extend_nil. cbn. destruct (message l); repeat split; lia.
  - apply plain_stream_yield in Hp as [Hrest Hplain]. specialize (IH Hrest).
    rewrite consume_yield, total_fragment_length_yield. cbn [fragments].
    step_cases w ev l s;
      try (destruct (Hplain eq_refl) as [Hi Hs]; congruence).
    + (* threshold edit, delivered *)
      match goal with |- context [consume w q rest ?l1 ?s1] =>
        destruct (IH l1 s1) as (new & Hn & Hr & Ho & Hb) end.
      eexists. rewrite Hn, extend_extend. split; [reflexivity|].
      change (?c :: [] ++ new) with ([c] ++ new). rewrite !count_ops_app.
      cbn [message] in Hr. rewrite Hr, Ho, Hr.
      change (count_ops is_reply_text [_]) with 0.
      change (count_ops is_outbound [_]) with 1.
      change (count_ops is_edit [_]) with 1.
      split; [first [reflexivity|destruct (fragments rest); reflexivity]|].
      split; [first [reflexivity|lia]|].
      apply Nat.leb_le in Hfull. cbn [content_buffer length] in Hb.
      rewrite length_app in Hfull.
      destruct (fst (consume _ _ _ _ _)); lia.
    + (* threshold edit, lost *)
      match goal with |- context [consume w q rest ?l1 ?s1] =>
        destruct (IH l1 s1) as (new & Hn & Hr & Ho & Hb) end.
      eexists. rewrite Hn, extend_extend. split; [reflexivity|].
      change (?c :: [?d] ++ new) with ([c; d] ++ new). rewrite !count_ops_app.
      cbn [message] in Hr. rewrite Hr, Ho, Hr.
      change (count_ops is_reply_text [_; _]) with 0.
      change (count_ops is_outbound [_; _]) with 1.
      change (count_ops is_edit [_; _]) with 1.
      split; [first [reflexivity|destruct (fragments rest); reflexivity]|].
      split; [first [reflexivity|lia]|].
      apply Nat.leb_le in Hfull. cbn [content_buffer length] in Hb.
      rewrite length_app in Hfull.
      destruct (fst (consume _ _ _ _ _)); lia.
    + (* below the threshold *)
      match goal with |- context [consume w q rest ?l1 ?s1] =>
        destruct (IH l1 s1) as (new & Hn & Hr & Ho & Hb) end.
      exists new. split; [exact Hn|]. cbn [message] in Hr.
      split; [rewrite Hr; first [reflexivity|destruct (fragments rest); reflexivity]|].
      split; [exact Ho|].
      cbn [content_buffer] in Hb. rewrite length_app in Hb.
      destruct (fst (consume _ _ _ _ _)); lia.
    + (* first send, delivered *)
      match goal with |- context [consume w q rest ?l1 ?s1] =>
        destruct (IH l1 s1) as (new & Hn & Hr & Ho & Hb) end.
      eexists. rewrite Hn, extend_extend. split; [reflexivity|].
      rewrite !count_ops_app. cbn [message] in Hr. rewrite Hr, Ho, Hr.
      change (count_ops is_reply_text [_]) with 1.
      change (count_ops is_outbound [_]) with 1.
      change (count_ops is_edit [_]) with 0.
      split; [first [reflexivity|destruct (fragments rest); reflexivity]|].
      split; [first [reflexivity|lia]|].
      cbn [content_buffer] in Hb. rewrite length_app in Hb.
      destruct (fst (consume _ _ _ _ _)); lia.
    + (* first send, lost *)
      eexists. cbn [fst snd]. split; [reflexivity|].
      repeat split. cbn. lia.
    + (* not a message delta *)
      destruct (IH l s) as (new & Hn & Hr & Ho & Hb).
      exists new. repeat split; assumption.
Qed.

Lemma ceil_div_lower k a : BUFFER_SIZE * k <= a + 29 -> k <= ceil_div a BUFFER_SIZE.
Proof.
  intros H. unfold ceil_div. apply Nat.div_le_lower_bound; [discriminate|].
  unfold BUFFER_SIZE in *. lia.
Qed.

(** C6, as the source has it.  On a stream without image and status
    fragments the edits (threshold edits and the final edit) number at
    most [ceil(total_fragment_length / 30)]; there is exactly one initial
    send as soon as the stream delivers a fragment, none otherwise; and
    nothing else is sent. *)
Theorem C6_edits_at_most_ceiling w q pid s :
  let evs := chat_stream w (BOT_ID w) pid q in
  plain_stream evs = true ->
  exists new,
    snd (stream_answer w q pid s) = extend s new
    /\ count_ops is_edit new
       <= ceil_div (total_fragment_length evs) BUFFER_SIZE
    /\ count_ops is_reply_text new
       = match fragments evs with [] => 0 | _ :: _ => 1 end
    /\ count_ops is_outbound new
       = count_ops is_reply_text new + count_ops is_edit new.
Proof.
  cbv zeta. intros Hp. rewrite stream_answer_cases.
  set (evs := chat_stream w (BOT_ID w) pid q) in *.
  set (opened := Call (OpChatStream (BOT_ID w) pid q) true).
  destruct (consume_plain_counts w q evs Hp no_locals (extend s [opened]))
    as (new & Hn & Hr & Ho & Hb).
  cbn [message no_locals content_buffer length] in Hr, Hb.
  destruct (consume w q evs no_locals (extend s [opened])) as [[l|e] s1];
    cbn [fst snd] in Hn, Hb; subst s1; rewrite extend_extend.
  2:{ eexists. cbn [snd]. split; [reflexivity|].
      rewrite !count_ops_app, Hr, Ho, Hr.
      change (count_ops is_edit [opened]) with 0.
      change (count_ops is_reply_text [opened]) with 0.
      change (count_ops is_outbound [opened]) with 0.
      split; [apply ceil_div_lower; lia|]. split; reflexivity. }
  rewrite flush_cases.
  destruct (message l) as [h|].
  2:{ eexists. cbn [snd]. split; [reflexivity|].
      rewrite !count_ops_app, Hr, Ho, Hr.
      change (count_ops is_edit [opened]) with 0.
      change (count_ops is_reply_text [opened]) with 0.
      change (count_ops is_outbound [opened]) with 0.
      split; [apply ceil_div_lower; lia|]. split; reflexivity. }
  destruct (content_buffer l) as [|c cb] eqn:Hcb; cbn [nonempty].
  { eexists. cbn [snd]. split; [reflexivity|].
    rewrite !count_ops_app, Hr, Ho, Hr.
    change (count_ops is_edit [opened]) with 0.
    change (count_ops is_reply_text [opened]) with 0.
    change (count_ops is_outbound [opened]) with 0.
    split; [apply ceil_div_lower; lia|]. split; reflexivity. }
  cbv zeta. cbn [length] in Hb.
  eexists. cbn [snd]. rewrite extend_extend. split; [reflexivity|].
  rewrite !count_ops_app, Hr, Ho, Hr.
  change (count_ops is_edit [opened]) with 0.
  change (count_ops is_reply_text [opened]) with 0.
  change (count_ops is_outbound [opened]) with 0.
  assert (Hlast : forall tailc,
            tailc = (if delivers w (length (trace (extend s ([opened] ++ new))))
                     then Call (OpEditText h (text_buffer l ++ c :: cb)) true
                          :: Call (OpUpdateProjectMessages pid
                                     (messages l
                                      ++ [Entry assistant (text_buffer l ++ c :: cb)]))
                               (returned
                                  (update_project_messages w pid
                                     (messages l
                                      ++ [Entry assistant (text_buffer l ++ c :: cb)])))
                          :: (if returned
                                   (update_project_messages w pid
                                      (messages l
                                       ++ [Entry assistant (text_buffer l ++ c :: cb)]))
                              then [] else [Call OpLogWarning true])
                     else [Call (OpEditText h (text_buffer l ++ c :: cb)) false;
                           Call OpLogWarning true]) ->
            count_ops is_edit tailc = 1 /\ count_ops is_reply_text tailc = 0
            /\ count_ops is_outbound tailc = 1).
  { intros tailc ->. destruct (delivers w _); [|repeat split].
    destruct (returned _); repeat split. }
  destruct (Hlast _ eq_refl) as (He & Hrt & Hout).
  rewrite He, Hrt, Hout.
  split; [apply ceil_div_lower; unfold BUFFER_SIZE in *; lia|].
  destruct (fragments evs); split; lia.
Qed.

Lemma C6_edits_at_most_ceiling_witness :
  let w := sample_world (stream_of [delta (repeat 97%N 100)]) 3 0 [] in
  let evs := chat_stream w (BOT_ID w) (lit "p1") (lit "q") in
  exists new,
    snd (stream_answer w (lit "q") (lit "p1") (State awaiting_ctx []))
    = extend (State awaiting_ctx []) new
    /\ count_ops is_edit new
       <= ceil_div (total_fragment_length evs) BUFFER_SIZE
    /\ count_ops is_reply_text new
       = match fragments evs with [] => 0 | _ :: _ => 1 end
    /\ count_ops is_outbound new
       = count_ops is_reply_text new + count_ops is_edit new.
Proof.
  apply (C6_edits_at_most_ceiling
           (sample_world (stream_of [delta (repeat 97%N 100)]) 3 0 [])
           (lit "q") (lit "p1") (State awaiting_ctx [])).
  vm_compute. reflexivity.
Defined.

(** C6 as stated fails: one plain fragment of 100 characters is shown by
    the initial send and one final edit, while
    [ceil(100 / 30) = 4]. *)
Lemma C6_counterexample :
  let evs := stream_of [delta (repeat 97%N 100)] in
  let w := sample_world evs 3 0 [] in
  let new := trace (snd (stream_answer w (lit "q") (lit "p1")
                           (State awaiting_ctx []))) in
  plain_stream evs = true
  /\ total_fragment_length evs = 100
  /\ ceil_div (total_fragment_length evs) 30 = 4
  /\ count_ops is_edit new = 1
  /\ count_ops is_outbound new = 2
  /\ count_ops is_edit new <> ceil_div (total_fragment_length evs) 30.
Proof. vm_compute. repeat split; discriminate. Qed.

(** ** The text shown on plain streams *)

Lemma displayed_from_app n h a b cur :
  displayed_from n h (a ++ b) cur
  = displayed_from (n + length a) h b (displayed_from n h a cur).
Proof.
  revert n cur. induction a as [|c a IH]; intros n cur; cbn [app length].
  - now rewrite Nat.add_0_r.
  - cbn [displayed_from]. rewrite IH. f_equal. lia.
Qed.

Lemma displayed_snoc h tr c :
  displayed h (tr ++ [c]) =
  if call_ok c then
    match call_op c with
    | OpReplyText t => if length tr =? h then Some t else displayed h tr
    | OpEditText h' t => if h' =? h then Some t else displayed h tr
    | _ => displayed h tr
    end
  else displayed h tr.
Proof. unfold displayed. rewrite displayed_from_app. reflexivity. Qed.

Lemma normalise_app x y :
  replace br_marker newline (replace br_marker newline x ++ y)
  = replace br_marker newline (x ++ y).
Proof.
  apply replace_replace_app; [discriminate|].
  intros H. vm_compute in H. intuition discriminate.
Qed.

Lemma normalise_idem x :
  replace br_marker newline (replace br_marker newline x)
  = replace br_marker newline x.
Proof.
  rewrite <- (app_nil_r (replace br_marker newline x)) at 1.
  rewrite normalise_app, app_nil_r. reflexivity.
Qed.

Lemma answer_text_app q a b : answer_text q (a ++ b) = answer_text q a ++ b.
Proof. unfold answer_text. now rewrite <- !app_assoc. Qed.

Lemma completes_yield ev rest : completes (Yield ev rest) = completes rest.
Proof. reflexivity. Qed.

(** Once the answer message exists, a plain stream that ends normally is
    consumed to its end, the chat shows [text_buffer], and [text_buffer]
    followed by [content_buffer] is, up to the line-break markers, the
    header followed by what entered the buffers. *)
Lemma consume_plain_text w q evs :
  plain_stream evs = true -> completes evs = true ->
  (forall n, delivers w n = true) ->
  forall l s h body,
    message l = Some h ->
    displayed h (trace s) = Some (text_buffer l) ->
    replace br_marker newline (text_buffer l ++ content_buffer l)
    = replace br_marker newline (answer_text q body) ->
    exists l' s',
      consume w q evs l s = (Ok l', s')
      /\ message l' = Some h
      /\ displayed h (trace s') = Some (text_buffer l')
      /\ replace br_marker newline (text_buffer l' ++ content_buffer l')
         = replace br_marker newline
             (answer_text q (body ++ concat (fragments evs))).
Proof.
  intros Hp Hc Hd. induction evs as [| |ev rest IH]; intros l s h body Hm Hs Hn.
  - exists l, s. cbn [fragments concat]. rewrite app_nil_r. auto.
  - discriminate.
  - apply plain_stream_yield in Hp as [Hrest Hplain].
    rewrite completes_yield in Hc. specialize (IH Hrest Hc).
    rewrite consume_yield. cbn [fragments].
    step_cases w ev l s;
      try (destruct (Hplain eq_refl) as [Hi Hst]; congruence);
      try (rewrite Hd in Hok; discriminate);
      try congruence.
    + (* threshold edit *)
      injection Hm as ->.
      match goal with |- context [consume w q rest ?l1 ?s1] =>
        destruct (IH l1 s1 h (body ++ ev_content ev))
          as (l' & s' & E & Hm' & Hs' & Hn') end.
      * reflexivity.
      * cbn [message text_buffer content_buffer trace extend].
        rewrite displayed_snoc. cbn [call_ok call_op]. now rewrite Nat.eqb_refl.
      * cbn [text_buffer content_buffer].
        rewrite app_nil_r, normalise_idem, answer_text_app.
        rewrite app_assoc, <- normalise_app, Hn, normalise_app. reflexivity.
      * exists l', s'. rewrite E, Hn'. cbn [concat]. rewrite app_assoc. auto.
    + (* below the threshold *)
      injection Hm as ->.
      match goal with |- context [consume w q rest ?l1 ?s1] =>
        destruct (IH l1 s1 h (body ++ ev_content ev))
          as (l' & s' & E & Hm' & Hs' & Hn') end.
      * reflexivity.
      * exact Hs.
      * cbn [text_buffer content_buffer]. rewrite answer_text_app.
        rewrite app_assoc, <- normalise_app, Hn, normalise_app. reflexivity.
      * exists l', s'. rewrite E, Hn'. cbn [concat]. rewrite app_assoc. auto.
    + (* not a message delta *)
      destruct (IH l s h body Hm Hs Hn) as (l' & s' & E & Hm' & Hs' & Hn').
      exists l', s'. rewrite E. auto.
Qed.

(** From the start of the stream: nothing is shown while no fragment has
    arrived; the first fragment [f1] is sent with the header and stays in
    [content_buffer], so up to the line-break markers the text is the
    header followed by [f1], [f1] again and the later fragments. *)
Lemma consume_plain_text_start w q evs :
  plain_stream evs = true -> completes evs = true ->
  (forall n, delivers w n = true) ->
  forall s,
    match fragments evs with
    | [] => consume w q evs no_locals s = (Ok no_locals, s)
    | f1 :: later =>
        exists l' s',
          consume w q evs no_locals s = (Ok l', s')
          /\ message l' = Some (length (trace s))
          /\ displayed (length (trace s)) (trace s') = Some (text_buffer l')
          /\ replace br_marker newline (text_buffer l' ++ content_buffer l')
             = replace br_marker newline
                 (answer_text q (f1 ++ f1 ++ concat later))
    end.
Proof.
  intros Hp Hc Hd. induction evs as [| |ev rest IH]; intros s.
  - reflexivity.
  - discriminate.
  - pose proof Hp as Hp0.
    apply plain_stream_yield in Hp as [Hrest Hplain].
    rewrite completes_yield in Hc. specialize (IH Hrest Hc s).
    rewrite consume_yield. cbn [fragments].
    step_cases w ev no_locals s;
      try (destruct (Hplain eq_refl) as [Hi Hst]; congruence);
      try (rewrite Hd in Hok; discriminate);
      try discriminate.
    + cbn [content_buffer no_locals app messages].
      match goal with |- context [consume w q rest ?l1 ?s1] =>
        destruct (consume_plain_text w q rest Hrest Hc Hd l1 s1
                    (length (trace s)) (ev_content ev ++ ev_content ev))
          as (l' & s' & E & Hm' & Hs' & Hn') end.
      * reflexivity.
      * cbn [message text_buffer content_buffer trace extend].
        rewrite displayed_snoc. cbn [call_ok call_op]. now rewrite Nat.eqb_refl.
      * cbn [text_buffer content_buffer]. now rewrite answer_text_app.
      * exists l', s'. rewrite E, Hn', <- app_assoc. auto.
    + exact IH.
Qed.

(** C3 at two streams without image and status fragments, every send and
    edit delivered.  After the fragments [卦] and [象] the answer message
    shows the question header followed by [卦卦象]: the first fragment is
    sent with the header and stays in [content_buffer], which the sending
    branch does not clear as the threshold branch does, so the final edit
    appends it a second time; the claimed text is [卦象].  After an empty
    fragment and [乾<br><br>坤] the answer message ends in
    [乾<br><br>坤]: the final edit appends [content_buffer] without the
    replacement that the threshold branch applies; the claimed text has a
    newline for the marker. *)
Theorem C3_first_fragment_repeated_markers_kept :
  let q := text sample_update in
  let shown evs :=
    displayed 5
      (trace (snd (handle_message (sample_world evs 3 0 []) sample_update
                     (State awaiting_ctx [])))) in
  let claimed evs := replace br_marker newline (concat (fragments evs)) in
  let repeated := stream_of [delta (lit "卦"); delta (lit "象")] in
  let marked := stream_of [delta []; delta (lit "乾<br><br>坤")] in
  (plain_stream repeated = true
   /\ completes repeated = true
   /\ claimed repeated = lit "卦象"
   /\ shown repeated = Some (answer_text q (lit "卦卦象")))
  /\ (plain_stream marked = true
      /\ completes marked = true
      /\ claimed marked = lit "乾" ++ newline ++ lit "坤"
      /\ shown marked = Some (answer_text q (lit "乾<br><br>坤"))).
Proof. vm_compute. repeat split. Qed.

(** The scenario of the specification: quota 3, the question
    ["今年运势如何"], a status fragment, then plain fragments crossing the
    threshold once.  The handler sends the status message, the answer
    message, one threshold edit and the final edit, and persists a
    transcript of two assistant entries. *)
Example specification_scenario :
  let evs :=
    stream_of [delta (lit "开始起卦"); delta (lit "卦"); delta (lit "象为乾");
               delta (repeat 97%N 29); delta (lit "，大吉")] in
  let w := sample_world evs 3 0 [] in
  let tr := trace (snd (handle_message w sample_update (State awaiting_ctx []))) in
  map (fun c => is_outbound (call_op c)) tr
  = [false; false; false; false; false; true; true; true; true; false]
  /\ count_ops (is_reply_of status_marker) tr = 1
  /\ count_ops is_edit tr = 2
  /\ exists final,
       last tr (Call OpPrint true)
       = Call (OpUpdateProjectMessages (lit "p1")
                 [Entry assistant (lit "开始起卦"); Entry assistant final]) true.
Proof. vm_compute. repeat split. eexists. reflexivity. Qed.

(** ** Image fragments with one separator *)

Lemma contains_false_startswith sub s :
  contains sub s = false -> startswith sub s = false.
Proof. destruct s; cbn [contains]; intros H; now apply orb_false_iff in H. Qed.

Lemma contains_false_tail sub c s :
  contains sub (c :: s) = false -> contains sub s = false.
Proof. cbn [contains]. intros H. now apply orb_false_iff in H. Qed.

Lemma contains_app sub pre r : contains sub (pre ++ sub ++ r) = true.
Proof.
  induction pre as [|c pre IH].
  - cbn [app]. destruct (sub ++ r) eqn:E; cbn [contains]; rewrite <- ?E;
      rewrite startswith_app; reflexivity.
  - cbn [app contains]. rewrite IH. apply orb_true_r.
Qed.

Lemma split_aux_no_match sep acc pre rest :
  (forall p1 p2, pre = p1 ++ p2 -> p2 <> [] ->
     startswith sep (p2 ++ rest) = false) ->
  split_aux sep 0 acc (pre ++ rest) = split_aux sep 0 (acc ++ pre) rest.
Proof.
  revert acc. induction pre as [|c pre IH]; intros acc H.
  - now rewrite app_nil_r.
  - cbn [app split_aux].
    pose proof (H [] (c :: pre) eq_refl ltac:(discriminate)) as H0.
    cbn [app] in H0. rewrite H0, IH.
    + now rewrite <- app_assoc.
    + intros p1 p2 -> Hp2. apply (H (c :: p1) p2 eq_refl Hp2).
Qed.

Lemma separator_not_before pre rest :
  contains (lit "](") pre = false ->
  startswith [40%N] rest = false ->
  forall p1 p2, pre = p1 ++ p2 -> p2 <> [] ->
    startswith (lit "](") (p2 ++ rest) = false.
Proof.
  intros Hc Hr p1. revert pre Hc.
  induction p1 as [|a p1 IH]; intros pre Hc p2 -> Hp2.
  - cbn [app] in Hc. apply contains_false_startswith in Hc.
    destruct p2 as [|c [|d p2]]; [congruence| |exact Hc].
    change (lit "](") with [93%N; 40%N]. cbn [app startswith].
    cbn [startswith] in Hr. destruct rest; [apply andb_false_r|].
    rewrite Hr. apply andb_false_r.
  - apply (IH (p1 ++ p2)); [|reflexivity|exact Hp2].
    exact (contains_false_tail _ _ _ Hc).
Qed.

Lemma split_one_separator alt url :
  contains (lit "](") alt = false ->
  contains (lit "](") url = false ->
  split (lit "](") (lit "![" ++ alt ++ lit "](" ++ url ++ lit ")")
  = [lit "![" ++ alt; url ++ lit ")"].
Proof.
  intros Ha Hu. unfold split. rewrite app_assoc.
  rewrite split_aux_no_match.
  2:{ apply separator_not_before; [|reflexivity].
      change (lit "![") with [33%N; 91%N]. cbn [app contains startswith].
      change (lit "](") with [93%N; 40%N] in *. cbn [startswith N.eqb Pos.eqb].
      destruct alt; exact Ha. }
  change (lit "](" ++ url ++ lit ")") with (93%N :: 40%N :: url ++ lit ")").
  cbn [split_aux]. change (lit "](") with [93%N; 40%N].
  cbn [startswith N.eqb Pos.eqb andb length Nat.sub app].
  f_equal. fold (lit "](") in *.
  destruct (url ++ lit ")") as [|c r] eqn:E.
  { destruct url; discriminate. }
  rewrite <- E. change [93%N; 40%N] with (lit "](").
  rewrite split_aux_no_match.
  2:{ apply separator_not_before; [exact Hu|reflexivity]. }
  reflexivity.
Qed.

Lemma well_formed_is_image alt url :
  is_image (lit "![" ++ alt ++ lit "](" ++ url ++ lit ")") = true.
Proof.
  unfold is_image. rewrite startswith_app.
  rewrite app_assoc, contains_app. cbn [andb].
  unfold endswith. rewrite !app_assoc, rev_app_distr.
  apply startswith_app.
Qed.

(** X22. An image fragment [![alt](url)] in which [](] occurs only once: one
    photo send with [url]; when it returns, the fragment is recorded as
    an assistant entry and the buffers are untouched. *)
Lemma image_fragment_one_separator w q alt url l s :
  contains (lit "](") alt = false ->
  contains (lit "](") url = false ->
  let f := lit "![" ++ alt ++ lit "](" ++ url ++ lit ")" in
  let ok := delivers w (length (trace s)) in
  on_event w q (delta f) l s =
  (if ok
   then Ok (Locals (messages l ++ [Entry assistant f]) (text_buffer l)
              (message l) (content_buffer l))
   else Raise TransportError,
   extend s [Call (OpReplyPhoto url) ok]).
Proof.
  intros Ha Hu f ok. rewrite on_event_cases. cbv zeta.
  cbn [delta ev_event ev_content is_message_delta]. subst f.
  rewrite well_formed_is_image, (split_one_separator alt url Ha Hu).
  cbn [nth_error]. unfold drop_last. change (lit ")") with [41%N].
  rewrite removelast_last. reflexivity.
Qed.

(** ** A question that is accepted *)

(** With quota left and the project created, [handle_message] leaves the
    awaiting state and hands the question to [answer_question]. *)
Lemma handle_message_accepts w u s ln uid limit used pid :
  truthy (waiting_for_question (ctx s)) = true ->
  last_name u = Some ln ->
  get_or_create_user w (effective_user_id u) (first_name u ++ lit " " ++ ln)
    = Returns (Some uid) ->
  get_user_daily_limit w uid = Returns limit ->
  get_today_usage_count w uid (current_date w) = Returns used ->
  (0 < limit - used)%Z ->
  create_project w uid (text u) = Returns (Some pid) ->
  handle_message w u s =
  answer_question w (text u) pid
    (State (UserData (Some limit) (Some (limit - used)%Z)
              (Some (current_date w)) (Some uid) (Some false))
       (trace s ++ refresh_calls w u (first_name u ++ lit " " ++ ln) uid
        ++ [Call (OpCreateProject uid (text u)) true])).
Proof.
  intros Hw Hln Hu Hl Hc Hlt Hp.
  unfold handle_message, bind at 1, get_ctx. rewrite Hw.
  unfold bind at 1, full_name. rewrite Hln. unfold ret at 1.
  unfold bind at 1.
  rewrite (initialize_user_data_resolved _ _ _ _ _ _ _ Hu Hl Hc).
  unfold bind at 1, subscript, bind at 1, get_ctx. cbn [ctx refreshed daily_count].
  unfold ret at 1.
  assert (Hgt : (limit - used <=? 0)%Z = false) by (apply Z.leb_gt; exact Hlt).
  rewrite Hgt. cbv zeta.
  unfold bind at 1, set_waiting, bind at 1, get_ctx, put_ctx.
  cbn [ctx trace].
  unfold bind at 1, bind at 1, get_ctx.
  cbn [ctx trace refreshed daily_limit daily_count last_date user_id].
  unfold ret at 1.
  unfold bind at 1, backend, bind at 1, record. cbn [ctx trace].
  rewrite Hp. cbn [returned]. unfold ret at 1.
  unfold refresh_calls. rewrite <- !app_assoc. reflexivity.
Qed.

(** ** The refresh of the quota *)

(** X1. [initialize_user_data] refreshes all or nothing: either the
    user, the limit and the usage were all fetched and the four cached
    fields are set from them, or the context is left as it was; it never
    touches [waiting_for_question], and when it raises (a backend call
    raised) the context is unchanged. *)
Theorem initialize_user_data_all_or_nothing w tg name s :
  let run := initialize_user_data w tg name s in
  waiting_for_question (ctx (snd run)) = waiting_for_question (ctx s)
  /\ (ctx (snd run) = ctx s
      \/ exists uid limit used,
           fst run = Ok tt
           /\ get_or_create_user w tg name = Returns (Some uid)
           /\ get_user_daily_limit w uid = Returns limit
           /\ get_today_usage_count w uid (current_date w) = Returns used
           /\ ctx (snd run) = refreshed (ctx s) w uid limit used)
  /\ (forall e, fst run = Raise e -> ctx (snd run) = ctx s /\ e = BackendError).
Proof.
  cbv zeta.
  unfold initialize_user_data, backend, log_error, record, get_ctx, put_ctx,
    bind, ret, raise.
  cbn [ctx trace].
  destruct (get_or_create_user w tg name) as [[uid|]|] eqn:Hu; cbn [fst snd ctx].
  - destruct (get_user_daily_limit w uid) as [limit|] eqn:Hl; cbn [fst snd ctx].
    + destruct (get_today_usage_count w uid (current_date w)) as [used|] eqn:Hc;
        cbn [fst snd ctx waiting_for_question].
      * split; [reflexivity|]. split; [|discriminate].
        right. exists uid, limit, used. repeat split; assumption.
      * split; [reflexivity|]. split; [now left|].
        intros e H. injection H as <-. auto.
    + split; [reflexivity|]. split; [now left|].
      intros e H. injection H as <-. auto.
  - split; [reflexivity|]. split; [now left|]. discriminate.
  - split; [reflexivity|]. split; [now left|].
    intros e H. injection H as <-. auto.
Qed.

(** ** The start command *)

(** X2. With the user resolved, [start] refreshes the quota and answers
    with one message: the exhaustion notice when nothing remains, the
    prompt otherwise; the session starts awaiting a question exactly when
    quota remains and the prompt was delivered, and keeps its flag in every
    other case. *)
Theorem start_prompts_when_quota_remains w u s ln uid limit used :
  last_name u = Some ln ->
  get_or_create_user w (effective_user_id u) (first_name u ++ lit " " ++ ln)
    = Returns (Some uid) ->
  get_user_daily_limit w uid = Returns limit ->
  get_today_usage_count w uid (current_date w) = Returns used ->
  let ok := delivers w (length (trace s) + 4) in
  let exhausted := (limit - used <=? 0)%Z in
  start w u s =
  (if ok then Ok tt else Raise TransportError,
   State
     (UserData (Some limit) (Some (limit - used)%Z) (Some (current_date w))
        (Some uid)
        (if negb exhausted && ok then Some true
         else waiting_for_question (ctx s)))
     (trace s
      ++ Call OpPrint true
         :: refresh_calls w u (first_name u ++ lit " " ++ ln) uid
      ++ [Call (OpReplyText
                  (if exhausted then exhausted_notice else question_prompt))
            ok])).
Proof.
  intros Hln Hu Hl Hc ok exhausted.
  unfold start, bind at 1, record. cbn [ctx trace].
  unfold bind at 1, full_name. rewrite Hln. unfold ret at 1.
  unfold bind at 1.
  rewrite (initialize_user_data_resolved _ _ _ _ _ _ _ Hu Hl Hc).
  unfold bind at 1, subscript, bind at 1, get_ctx.
  cbn [ctx trace refreshed daily_count]. unfold ret at 1.
  fold exhausted.
  assert (Hlen : length ((trace s ++ [Call OpPrint true])
                         ++ [Call (OpGetOrCreateUser (effective_user_id u)
                                     (first_name u ++ lit " " ++ ln)) true;
                             Call (OpGetUserDailyLimit uid) true;
                             Call (OpGetTodayUsageCount uid (current_date w)) true])
                 = length (trace s) + 4).
  { rewrite !length_app. cbn [length]. lia. }
  destruct exhausted; cbn [negb andb].
  - unfold bind, reply_text, transport, ret. cbn [ctx trace].
    rewrite Hlen. fold ok. unfold refresh_calls.
    rewrite <- !app_assoc. cbn [app]. destruct ok; reflexivity.
  - unfold bind at 1, reply_text, transport. cbn [ctx trace].
    rewrite Hlen. fold ok. unfold refresh_calls.
    rewrite <- !app_assoc. cbn [app].
    destruct ok; [|reflexivity].
    unfold set_waiting, bind, get_ctx, put_ctx. reflexivity.
Qed.

Lemma start_prompts_witness :
  let w := sample_world Exhausted 3 1 [] in
  let u := sample_update in
  let s := State empty_user_data [] in
  let ok := delivers w (length (trace s) + 4) in
  let exhausted := (3 - 1 <=? 0)%Z in
  start w u s =
  (if ok then Ok tt else Raise TransportError,
   State
     (UserData (Some 3%Z) (Some (3 - 1)%Z) (Some (current_date w))
        (Some (lit "u1"))
        (if negb exhausted && ok then Some true
         else waiting_for_question (ctx s)))
     (trace s
      ++ Call OpPrint true
         :: refresh_calls w u (first_name u ++ lit " " ++ lit "Zhang") (lit "u1")
      ++ [Call (OpReplyText
                  (if exhausted then exhausted_notice else question_prompt))
            ok])).
Proof.
  apply (start_prompts_when_quota_remains (sample_world Exhausted 3 1 [])
           sample_update (State empty_user_data []) (lit "Zhang") (lit "u1")
           3%Z 1%Z); reflexivity.
Defined.

Ltac run_handler :=
  repeat match goal with
  | |- context [match ?x with _ => _ end] =>
      lazymatch x with
      | context [match _ with _ => _ end] => fail
      | _ => destruct x eqn:?
      end;
      cbn [ctx trace fst snd returned daily_limit daily_count last_date
           user_id waiting_for_question]
  end.

Ltac close_trace :=
  eexists; split;
  [ cbn [snd trace]; rewrite <- ?app_assoc; cbn [app];
    first [reflexivity | symmetry; apply app_nil_r]
  | unfold replies_at_most_once, count_ops;
    cbn [filter call_op is_outbound is_reply_text is_create_project
         is_chat_stream is_update length];
    repeat split; lia ].

(** X3. [start] sends at most one message, a text reply, and touches
    neither projects nor the chat backend, whatever the session and the
    collaborators do. *)
Theorem start_replies_at_most_once w u s :
  exists new,
    trace (snd (start w u s)) = trace s ++ new /\ replies_at_most_once new.
Proof.
  unfold start, initialize_user_data, subscript, set_waiting, full_name,
    reply_text, transport, backend, log_error, record, get_ctx, put_ctx,
    raise, bind, ret.
  cbn [ctx trace].
  run_handler; close_trace.
Qed.

(** X4. [profile] sends at most one message, a text reply, and touches
    neither projects nor the chat backend, whatever the session and the
    collaborators do. *)
Theorem profile_replies_at_most_once w u s :
  exists new,
    trace (snd (profile w u s)) = trace s ++ new /\ replies_at_most_once new.
Proof.
  unfold profile, to_beijing_day, initialize_user_data, subscript, full_name,
    reply_text, transport, backend, log_error, record, get_ctx, put_ctx,
    raise, bind, ret.
  cbn [ctx trace].
  run_handler; close_trace.
Qed.

(** ** Messages *)

Lemma answer_question_keeps_ctx w q pid s :
  ctx (snd (answer_question w q pid s)) = ctx s.
Proof.
  destruct (answer_question_shape w q pid s) as (mid & tail & H & _).
  rewrite H. reflexivity.
Qed.

Lemma handle_message_idle w u s :
  truthy (waiting_for_question (ctx s)) = false ->
  handle_message w u s
  = (if delivers w (length (trace s)) then Ok tt else Raise TransportError,
     extend s [Call (OpReplyText start_first) (delivers w (length (trace s)))]).
Proof.
  intros Hw. unfold handle_message, bind at 1, get_ctx. rewrite Hw.
  unfold bind, reply_text, transport, ret, extend.
  destruct (delivers w _); reflexivity.
Qed.

(** X5. [handle_message] never puts the session into the awaiting state:
    afterwards [waiting_for_question] is what it was, or [False]. *)
Theorem handle_message_never_starts_awaiting w u s :
  let c' := ctx (snd (handle_message w u s)) in
  waiting_for_question c' = waiting_for_question (ctx s)
  \/ waiting_for_question c' = Some false.
Proof.
  cbv zeta. unfold handle_message.
  pose proof (answer_question_keeps_ctx w (text u)) as Haq.
  set (aq := answer_question w (text u)) in *.
  unfold initialize_user_data, subscript, set_waiting, full_name,
    reply_text, transport, backend, log_error, record, get_ctx, put_ctx,
    raise, bind, ret.
  cbn [ctx trace].
  repeat match goal with
  | |- context [match ?x with _ => _ end] =>
      lazymatch x with
      | context [match _ with _ => _ end] => fail
      | context [aq] => fail
      | _ => destruct x eqn:?
      end;
      cbn [ctx trace fst snd returned daily_limit daily_count last_date
           user_id waiting_for_question]
  end;
  rewrite ?Haq; cbn [ctx waiting_for_question]; auto.
Qed.

(** X6. When the project cannot be created, the question is dropped: the
    handler has already left the awaiting state, answers with the system
    error when [create_project] returned nothing (and lets the exception
    escape without any reply when it raised), and opens no stream. *)
Theorem handle_message_project_not_created w u s ln uid limit used r :
  truthy (waiting_for_question (ctx s)) = true ->
  last_name u = Some ln ->
  get_or_create_user w (effective_user_id u) (first_name u ++ lit " " ++ ln)
    = Returns (Some uid) ->
  get_user_daily_limit w uid = Returns limit ->
  get_today_usage_count w uid (current_date w) = Returns used ->
  (0 < limit - used)%Z ->
  create_project w uid (text u) = r ->
  (forall pid, r <> Returns (Some pid)) ->
  let ok := delivers w (length (trace s) + 4) in
  handle_message w u s =
  (match r with
   | Returns _ => if ok then Ok tt else Raise TransportError
   | Raises => Raise BackendError
   end,
   State (UserData (Some limit) (Some (limit - used)%Z)
            (Some (current_date w)) (Some uid) (Some false))
     (trace s ++ refresh_calls w u (first_name u ++ lit " " ++ ln) uid
      ++ Call (OpCreateProject uid (text u)) (returned r)
         :: match r with
            | Returns _ => [Call (OpReplyText system_error) ok]
            | Raises => []
            end)).
Proof.
  intros Hw Hln Hu Hl Hc Hlt Hp Hr ok.
  unfold handle_message, bind at 1, get_ctx. rewrite Hw.
  unfold bind at 1, full_name. rewrite Hln. unfold ret at 1.
  unfold bind at 1.
  rewrite (initialize_user_data_resolved _ _ _ _ _ _ _ Hu Hl Hc).
  unfold bind at 1, subscript, bind at 1, get_ctx. cbn [ctx refreshed daily_count].
  unfold ret at 1.
  assert (Hgt : (limit - used <=? 0)%Z = false) by (apply Z.leb_gt; exact Hlt).
  rewrite Hgt. cbv zeta.
  unfold bind at 1, set_waiting, bind at 1, get_ctx, put_ctx.
  cbn [ctx trace].
  unfold bind at 1, bind at 1, get_ctx.
  cbn [ctx trace refreshed daily_limit daily_count last_date user_id].
  unfold ret at 1.
  unfold bind at 1, backend, bind at 1, record. cbn [ctx trace].
  rewrite Hp. unfold refresh_calls.
  destruct r as [[pid|]|]; cbn [returned].
  - exfalso. exact (Hr pid eq_refl).
  - unfold ret at 1. unfold bind, reply_text, transport, ret. cbn [ctx trace].
    rewrite !length_app. cbn [length].
    replace (length (trace s) + 3 + 1) with (length (trace s) + 4) by lia.
    fold ok. rewrite <- !app_assoc. cbn [app]. destruct ok; reflexivity.
  - unfold raise. rewrite <- !app_assoc. reflexivity.
Qed.

Lemma handle_message_project_not_created_witness :
  let w := no_project_world in
  let u := sample_update in
  let s := State awaiting_ctx [] in
  let ok := delivers w (length (trace s) + 4) in
  handle_message w u s =
  (match @Returns (option pystr) None with
   | Returns _ => if ok then Ok tt else Raise TransportError
   | Raises => Raise BackendError
   end,
   State (UserData (Some 3%Z) (Some (3 - 0)%Z)
            (Some (current_date w)) (Some (lit "u1")) (Some false))
     (trace s ++ refresh_calls w u (first_name u ++ lit " " ++ lit "Zhang") (lit "u1")
      ++ Call (OpCreateProject (lit "u1") (text u))
           (returned (@Returns (option pystr) None))
         :: match @Returns (option pystr) None with
            | Returns _ => [Call (OpReplyText system_error) ok]
            | Raises => []
            end)).
Proof.
  apply (handle_message_project_not_created no_project_world sample_update
           (State awaiting_ctx []) (lit "Zhang") (lit "u1") 3%Z 0%Z
           (Returns None)); try reflexivity.
  intros pid. discriminate.
Defined.

(** X7. Once the project is created the session is idle again and caches
    the refreshed quota as fetched, [limit - used], whatever the stream
    does afterwards: the count is not decremented locally. *)
Theorem handle_message_accepted_context w u s ln uid limit used pid :
  truthy (waiting_for_question (ctx s)) = true ->
  last_name u = Some ln ->
  get_or_create_user w (effective_user_id u) (first_name u ++ lit " " ++ ln)
    = Returns (Some uid) ->
  get_user_daily_limit w uid = Returns limit ->
  get_today_usage_count w uid (current_date w) = Returns used ->
  (0 < limit - used)%Z ->
  create_project w uid (text u) = Returns (Some pid) ->
  ctx (snd (handle_message w u s))
  = UserData (Some limit) (Some (limit - used)%Z) (Some (current_date w))
      (Some uid) (Some false).
Proof.
  intros Hw Hln Hu Hl Hc Hlt Hp.
  rewrite (handle_message_accepts _ _ _ _ _ _ _ _ Hw Hln Hu Hl Hc Hlt Hp).
  apply answer_question_keeps_ctx.
Qed.

Lemma handle_message_accepted_context_witness :
  let w := sample_world (Yield (delta (lit "卦")) Fails) 3 1 [] in
  ctx (snd (handle_message w sample_update (State awaiting_ctx [])))
  = UserData (Some 3%Z) (Some (3 - 1)%Z) (Some (current_date w))
      (Some (lit "u1")) (Some false).
Proof.
  apply (handle_message_accepted_context
           (sample_world (Yield (delta (lit "卦")) Fails) 3 1 [])
           sample_update (State awaiting_ctx []) (lit "Zhang") (lit "u1")
           3%Z 1%Z (lit "p1")); try reflexivity.
Defined.

(** ** The profile *)


(** X9. [start] raises [KeyError] exactly on a session that has never
    been refreshed when the user cannot be resolved; the missing key is
    ['daily_count']. *)
Theorem start_key_error_iff_unresolved_first_contact w u s :
  (exists k, fst (start w u s) = Raise (KeyError k))
  <-> (daily_count (ctx s) = None
       /\ exists ln,
            last_name u = Some ln
            /\ get_or_create_user w (effective_user_id u)
                 (first_name u ++ lit " " ++ ln) = Returns None).
Proof.
  split.
  - intros [k H]. revert H.
    unfold start, initialize_user_data, subscript, set_waiting, full_name,
      reply_text, transport, backend, log_error, record, get_ctx, put_ctx,
      raise, bind, ret.
    cbn [ctx trace].
    run_handler; cbn [fst]; try discriminate; intros _;
      split; try assumption; eauto.
  - intros (Hd & ln & Hln & Hu).
    rewrite (start_unresolved_first_contact w u ln s Hln Hu Hd).
    eexists. reflexivity.
Qed.


(** ** Sessions *)

Ltac close_coherent :=
  match goal with
  | Hc : coherent ?c0 |- _ =>
      unfold coherent, cache_filled in *;
      cbn [daily_limit daily_count last_date user_id waiting_for_question
           truthy] in *;
      destruct Hc as [Hc|(H1 & H2 & H3 & H4 & H5)];
      [ left;
        repeat match goal with
               | H : ?f c0 = _ |- _ => rewrite H in *
               end;
        first [reflexivity | assumption
              | destruct (daily_limit c0); [|discriminate];
                destruct (daily_count c0); [|discriminate];
                destruct (last_date c0); [|discriminate];
                destruct (user_id c0); [reflexivity|discriminate] ]
      | first [ left; reflexivity
              | right; repeat split; first [assumption | reflexivity]
              | congruence ] ]
  end.

Lemma start_keeps_coherent w u c :
  coherent c -> coherent (ctx (snd (start w u (State c [])))).
Proof.
  intros Hc.
  unfold start, initialize_user_data, subscript, set_waiting, full_name,
    reply_text, transport, backend, log_error, record, get_ctx, put_ctx,
    raise, bind, ret.
  cbn [ctx trace].
  run_handler; cbn [snd ctx]; close_coherent.
Qed.

Lemma profile_keeps_coherent w u c :
  coherent c -> coherent (ctx (snd (profile w u (State c [])))).
Proof.
  intros Hc.
  unfold profile, to_beijing_day, initialize_user_data, subscript, full_name,
    reply_text, transport, backend, log_error, record, get_ctx, put_ctx,
    raise, bind, ret.
  cbn [ctx trace].
  run_handler; cbn [snd ctx]; close_coherent.
Qed.

Ltac run_message_handler aq :=
  repeat match goal with
  | |- context [match ?x with _ => _ end] =>
      lazymatch x with
      | context [match _ with _ => _ end] => fail
      | context [aq] => fail
      | _ => destruct x eqn:?
      end;
      cbn [ctx trace fst snd returned daily_limit daily_count last_date
           user_id waiting_for_question]
  end.

Lemma handle_message_keeps_coherent w u c :
  coherent c -> coherent (ctx (snd (handle_message w u (State c [])))).
Proof.
  intros Hc. unfold handle_message.
  pose proof (answer_question_keeps_ctx w (text u)) as Haq.
  set (aq := answer_question w (text u)) in *.
  unfold initialize_user_data, subscript, set_waiting, full_name,
    reply_text, transport, backend, log_error, record, get_ctx, put_ctx,
    raise, bind, ret.
  cbn [ctx trace].
  run_message_handler aq; rewrite ?Haq; cbn [snd ctx]; close_coherent.
Qed.

Lemma empty_context_coherent : coherent empty_user_data.
Proof. right. repeat split. Qed.

Lemma after_updates_coherent xs :
  forall c, coherent c -> coherent (fold_left after_update xs c).
Proof.
  induction xs as [|[[w i] u] xs IH]; intros c Hc; [exact Hc|].
  cbn [fold_left]. apply IH. unfold after_update, dispatch.
  destruct i.
  - now apply start_keeps_coherent.
  - now apply profile_keeps_coherent.
  - now apply handle_message_keeps_coherent.
Qed.

(** X10. Whatever updates a session has received, with whatever
    collaborators, its context is coherent: either the four cached fields
    ([daily_limit], [daily_count], [last_date], [user_id]) are all present,
    or none is and no question is awaited. *)
Theorem session_context_coherent xs : coherent (session_after xs).
Proof.
  unfold session_after. apply after_updates_coherent.
  exact empty_context_coherent.
Qed.

Lemma answer_question_result w q pid s :
  fst (answer_question w q pid s) = Ok tt
  \/ fst (answer_question w q pid s) = Raise TransportError.
Proof.
  rewrite answer_question_cases.
  destruct (stream_answer w q pid s) as [[[]|e] s1]; cbv zeta; cbn [fst].
  - now left.
  - destruct (delivers w _); auto.
Qed.

(** X11. In a session reached from first contact, [handle_message] never
    fails on a missing key: when a question is awaited the cached
    [daily_count] and [user_id] are there, also when the user cannot be
    resolved this time. *)
Theorem handle_message_finds_its_keys xs w u k :
  fst (handle_message w u (State (session_after xs) [])) <> Raise (KeyError k).
Proof.
  pose proof (after_updates_coherent xs _ empty_context_coherent) as Hc.
  fold (session_after xs) in Hc.
  set (c := session_after xs) in *. clearbody c.
  unfold handle_message.
  pose proof (answer_question_result w (text u)) as Haq.
  set (aq := answer_question w (text u)) in *.
  unfold initialize_user_data, subscript, set_waiting, full_name,
    reply_text, transport, backend, log_error, record, get_ctx, put_ctx,
    raise, bind, ret.
  cbn [ctx trace].
  run_message_handler aq; cbn [fst]; try discriminate;
    try (match goal with
         | |- fst (aq ?p ?s) <> _ =>
             destruct (Haq p s) as [E|E]; rewrite E; discriminate
         end);
    exfalso;
    unfold coherent, cache_filled in Hc;
    destruct Hc as [Hc|(H1 & H2 & H3 & H4 & H5)];
    try congruence;
    repeat match goal with
           | H : ?f c = _ |- _ => rewrite H in *
           end;
    try discriminate;
    destruct (daily_limit c); try discriminate;
    destruct (daily_count c); try discriminate;
    destruct (last_date c); try discriminate;
    destruct (user_id c); discriminate.
Qed.

(** ** Edits *)

Section ReplaceOutput.

Variables (old : pystr) (c0 : N).
Hypothesis old_nonempty : old <> [].
Hypothesis c0_fresh : ~ In c0 old.

Lemma contains_nil : contains old [] = false.
Proof. destruct old; [congruence|reflexivity]. Qed.

Lemma replace_leaves_no_occurrence x :
  contains old (replace old [c0] x) = false.
Proof.
  remember (length x) as n eqn:Hn. revert x Hn.
  induction n as [n IH] using lt_wf_ind. intros x Hn.
  destruct x as [|c x]; [apply contains_nil|].
  destruct (startswith old (c :: x)) eqn:E.
  - apply startswith_inv in E. set (r := skipn (length old) (c :: x)) in *.
    rewrite E, (replace_match old c0 old_nonempty c0_fresh). cbn [app contains].
    rewrite (startswith_fresh _ _ _ old_nonempty c0_fresh). cbn [orb].
    apply (IH (length r)); [|reflexivity].
    subst n. rewrite E, length_app. destruct old; [congruence|simpl; lia].
  - rewrite (replace_nomatch old) by exact E. cbn [contains].
    rewrite (IH (length x)) by (subst n; simpl; lia || reflexivity).
    rewrite orb_false_r.
    destruct (startswith old (c :: replace old [c0] x)) eqn:E3; [|reflexivity].
    apply startswith_cons_inv in E3 as [H1 H2]; [|assumption].
    rewrite <- (app_nil_r (replace old [c0] x)) in H2.
    apply (startswith_replace old c0 old_nonempty c0_fresh) in H2;
      [|now apply not_in_tl].
    rewrite app_nil_r in H2.
    rewrite (startswith_cons_intro _ _ _ H1 H2) in E. discriminate.
Qed.

End ReplaceOutput.

Lemma normalised_has_no_marker x :
  contains br_marker (replace br_marker newline x) = false.
Proof.
  apply replace_leaves_no_occurrence; [discriminate|].
  intros H. vm_compute in H. intuition discriminate.
Qed.

Lemma on_event_edits_without_marker w q ev l s :
  exists new,
    snd (on_event w q ev l s) = extend s new /\ Forall edit_without_marker new.
Proof.
  step_cases w ev l s; cbn [snd];
    try (exists []; split; [symmetry; apply extend_nil|constructor]);
    eexists; (split; [reflexivity|]);
    repeat (apply Forall_cons || apply Forall_nil);
    unfold edit_without_marker; cbn [call_op];
    solve [exact I | apply normalised_has_no_marker].
Qed.

(** X12. No edit issued by the stream loop shows the line-break marker:
    the text of every threshold edit is free of [<br><br>], whatever the
    fragments and the question contain. *)
Theorem threshold_edits_show_no_marker w q evs l s :
  exists new,
    snd (consume w q evs l s) = extend s new /\ Forall edit_without_marker new.
Proof.
  revert l s. induction evs as [| |ev rest IH]; intros l s.
  - exists []. split; [symmetry; apply extend_nil|constructor].
  - exists []. split; [symmetry; apply extend_nil|constructor].
  - rewrite consume_yield.
    destruct (on_event_edits_without_marker w q ev l s) as (new1 & H1 & F1).
    destruct (on_event w q ev l s) as [[l'|e] s1]; cbn [snd] in H1; subst s1.
    + destruct (IH l' (extend s new1)) as (new2 & H2 & F2).
      exists (new1 ++ new2). rewrite H2, extend_extend.
      split; [reflexivity|]. apply Forall_app. now split.
    + exists new1. now split.
Qed.

(** ** Failing edits *)

Lemma consume_plain_survives w q evs :
  plain_stream evs = true -> completes evs = true ->
  forall l s h,
    message l = Some h ->
    exists l' s', consume w q evs l s = (Ok l', s') /\ message l' = Some h.
Proof.
  intros Hp Hc. induction evs as [| |ev rest IH]; intros l s h Hm.
  - exists l, s. auto.
  - discriminate.
  - apply plain_stream_yield in Hp as [Hrest Hplain].
    rewrite completes_yield in Hc. specialize (IH Hrest Hc).
    rewrite consume_yield.
    step_cases w ev l s;
      try (destruct (Hplain eq_refl) as [Hi Hst]; congruence);
      try congruence;
      try (injection Hm as ->;
           match goal with |- context [consume w q rest ?l1 ?s1] =>
             exact (IH l1 s1 h eq_refl) end).
    exact (IH l s h Hm).
Qed.

Lemma consume_plain_start_survives w q evs :
  plain_stream evs = true -> completes evs = true ->
  forall s,
    delivers w (length (trace s)) = true ->
    exists l' s', consume w q evs no_locals s = (Ok l', s').
Proof.
  intros Hp Hc. induction evs as [| |ev rest IH]; intros s Hd.
  - exists no_locals, s. reflexivity.
  - discriminate.
  - apply plain_stream_yield in Hp as [Hrest Hplain].
    rewrite completes_yield in Hc. specialize (IH Hrest Hc).
    rewrite consume_yield.
    step_cases w ev no_locals s;
      try (destruct (Hplain eq_refl) as [Hi Hst]; congruence);
      try congruence; try discriminate.
    + match goal with |- context [consume w q rest ?l1 ?s1] =>
        destruct (consume_plain_survives w q rest Hrest Hc l1 s1
                    (length (trace s)) eq_refl) as (l' & s' & E & _) end.
      eauto.
    + exact (IH s Hd).
Qed.

(** X13. A failing edit never aborts the answer.  On a stream that ends
    normally and has no image and no status fragment, once the first text
    send is delivered the question is answered without the generic
    failure reply, whichever of the later edits fail. *)
Theorem edit_failures_do_not_abort w q pid s :
  let evs := chat_stream w (BOT_ID w) pid q in
  plain_stream evs = true ->
  completes evs = true ->
  delivers w (S (length (trace s))) = true ->
  exists new,
    snd (answer_question w q pid s) = extend s new
    /\ fst (answer_question w q pid s) = Ok tt
    /\ count_ops (is_reply_of failure_notice) new = 0.
Proof.
  cbv zeta. intros Hp Hc Hd.
  rewrite answer_question_cases, stream_answer_cases.
  set (evs := chat_stream w (BOT_ID w) pid q) in *.
  set (opened := Call (OpChatStream (BOT_ID w) pid q) true).
  assert (Hd0 : delivers w (length (trace (extend s [opened]))) = true).
  { unfold extend. cbn [trace]. rewrite length_app, Nat.add_1_r. exact Hd. }
  destruct (consume_plain_start_survives w q evs Hp Hc _ Hd0) as (l & s1 & E).
  destruct (consume_trace w q evs no_locals (extend s [opened]))
    as (mid & Hmid & Fmid).
  rewrite E in Hmid |- *. cbn [snd] in Hmid. subst s1.
  destruct (stream_call_quiet _ _ Fmid) as (Hr & _).
  rewrite extend_extend.
  rewrite flush_cases.
  destruct (message l) as [h|];
    [destruct (nonempty (content_buffer l))|]; cbv zeta.
  - rewrite extend_extend.
    match goal with |- context [extend s (?a ++ ?t)] =>
      exists (a ++ t); split; [reflexivity|]; split; [reflexivity|] end.
    rewrite !count_ops_app, Hr.
    destruct (delivers w (length (trace (extend s ([opened] ++ mid)))));
      [destruct (returned _)|]; reflexivity.
  - exists ([opened] ++ mid). repeat split.
    rewrite count_ops_app, Hr. reflexivity.
  - exists ([opened] ++ mid). repeat split.
    rewrite count_ops_app, Hr. reflexivity.
Qed.

Lemma edit_failures_do_not_abort_witness :
  let w :=
    sample_world
      (stream_of [delta (lit "卦"); delta (repeat 97%N 30); delta (lit "吉")])
      3 0 [2; 4] in
  let s := State awaiting_ctx [] in
  exists new,
    snd (answer_question w (lit "q") (lit "p1") s) = extend s new
    /\ fst (answer_question w (lit "q") (lit "p1") s) = Ok tt
    /\ count_ops (is_reply_of failure_notice) new = 0.
Proof.
  apply (edit_failures_do_not_abort
           (sample_world
              (stream_of [delta (lit "卦"); delta (repeat 97%N 30);
                          delta (lit "吉")]) 3 0 [2; 4])
           (lit "q") (lit "p1") (State awaiting_ctx []));
    vm_compute; reflexivity.
Defined.

(** X14. On a plain stream that ends normally, with every send and edit
    delivered, the text finally shown is, up to the line-break markers,
    the header followed by the first fragment, the first fragment again,
    and the later fragments: the first fragment is sent with the header
    and flushed once more from [content_buffer]. *)
Theorem first_fragment_is_shown_twice w q pid s f1 later :
  let evs := chat_stream w (BOT_ID w) pid q in
  plain_stream evs = true ->
  completes evs = true ->
  (forall n, delivers w n = true) ->
  fragments evs = f1 :: later ->
  exists final,
    displayed (S (length (trace s))) (trace (snd (stream_answer w q pid s)))
    = Some final
    /\ replace br_marker newline final
       = replace br_marker newline
           (answer_text q (f1 ++ f1 ++ concat later)).
Proof.
  cbv zeta. intros Hp Hc Hd Hf. rewrite stream_answer_cases.
  set (evs := chat_stream w (BOT_ID w) pid q) in *.
  set (opened := Call (OpChatStream (BOT_ID w) pid q) true).
  pose proof (consume_plain_text_start w q evs Hp Hc Hd (extend s [opened]))
    as H.
  rewrite Hf in H. destruct H as (l & s1 & E & Hm & Hs & Hn).
  assert (Hlen : length (trace (extend s [opened])) = S (length (trace s))).
  { unfold extend. cbn [trace]. rewrite length_app. cbn. lia. }
  rewrite Hlen in *. rewrite E, flush_cases, Hm.
  destruct (content_buffer l) as [|c cb] eqn:Hcb; cbn [nonempty].
  - exists (text_buffer l). cbn [snd]. split; [exact Hs|].
    rewrite app_nil_r in Hn. exact Hn.
  - cbv zeta. rewrite Hd. exists (text_buffer l ++ c :: cb).
    split; [|exact Hn]. cbn [snd extend trace].
    change (?a :: ?b :: ?t) with ([a] ++ b :: t).
    rewrite app_assoc.
    unfold displayed. rewrite displayed_from_app.
    fold (displayed (S (length (trace s)))
            (trace s1 ++ [Call (OpEditText (S (length (trace s)))
                                  (text_buffer l ++ c :: cb)) true])).
    rewrite displayed_snoc. cbn [call_ok call_op]. rewrite Nat.eqb_refl.
    cbn [displayed_from call_op call_ok].
    destruct (returned _); reflexivity.
Qed.

Lemma first_fragment_is_shown_twice_witness :
  let w := sample_world (stream_of [delta (lit "乾"); delta (lit "为天")]) 3 0 [] in
  let evs := chat_stream w (BOT_ID w) (lit "p1") (lit "q") in
  exists final,
    displayed (S (length (trace (State awaiting_ctx []))))
      (trace (snd (stream_answer w (lit "q") (lit "p1") (State awaiting_ctx []))))
    = Some final
    /\ replace br_marker newline final
       = replace br_marker newline
           (answer_text (lit "q") (lit "乾" ++ lit "乾" ++ concat [lit "为天"])).
Proof.
  apply (first_fragment_is_shown_twice
           (sample_world (stream_of [delta (lit "乾"); delta (lit "为天")]) 3 0 [])
           (lit "q") (lit "p1") (State awaiting_ctx []) (lit "乾") [lit "为天"]).
  - vm_compute. reflexivity.
  - vm_compute. reflexivity.
  - intros n. reflexivity.
  - vm_compute. reflexivity.
Defined.

Lemma image_fragment_one_separator_witness :
  let w := sample_world Exhausted 3 0 [] in
  let alt := lit "卦象" in
  let url := lit "https://example.com/gua(1).png" in
  let l := no_locals in
  let s := State awaiting_ctx [] in
  let f := lit "![" ++ alt ++ lit "](" ++ url ++ lit ")" in
  let ok := delivers w (length (trace s)) in
  on_event w (lit "q") (delta f) l s =
  (if ok
   then Ok (Locals (messages l ++ [Entry assistant f]) (text_buffer l)
              (message l) (content_buffer l))
   else Raise TransportError,
   extend s [Call (OpReplyPhoto url) ok]).
Proof.
  apply (image_fragment_one_separator (sample_world Exhausted 3 0 [])
           (lit "q") (lit "卦象") (lit "https://example.com/gua(1).png")
           no_locals (State awaiting_ctx []));
    vm_compute; reflexivity.
Defined.

Lemma edit_targets_answer_more q tr more c :
  edit_targets_answer q tr c -> edit_targets_answer q (tr ++ more) c.
Proof.
  unfold edit_targets_answer. destruct (call_op c); auto.
  intros (b & H). exists b. rewrite nth_error_app1; [exact H|].
  apply nth_error_Some. congruence.
Qed.

Lemma answer_handle_extend q l s new :
  answer_handle q l s -> answer_handle q l (extend s new).
Proof.
  intros H h Hh. destruct (H h Hh) as (b & Hb). exists b.
  unfold extend. cbn [trace]. rewrite nth_error_app1; [exact Hb|].
  apply nth_error_Some. congruence.
Qed.

Lemma on_event_edits_target w q ev l s :
  answer_handle q l s ->
  exists new,
    snd (on_event w q ev l s) = extend s new
    /\ Forall (edit_targets_answer q (trace s ++ new)) new
    /\ forall l', fst (on_event w q ev l s) = Ok l' ->
                  answer_handle q l' (extend s new).
Proof.
  intros Ha.
  assert (Hedit : forall h t more,
            message l = Some h ->
            edit_targets_answer q (trace s ++ more)
              (Call (OpEditText h t) (delivers w (length (trace s))))).
  { intros h t more Hh. unfold edit_targets_answer. cbn [call_op].
    destruct (Ha h Hh) as (b & Hb). exists b.
    rewrite nth_error_app1; [exact Hb|]. apply nth_error_Some. congruence. }
  step_cases w ev l s; cbn [fst snd].
  all: try (exists []; rewrite extend_nil; split; [reflexivity|];
            split; [constructor|]; intros l' H; inversion H; subst;
            intros h Hh; cbn [message] in Hh; rewrite <- ?Hmessage in Hh;
            now apply Ha).
  all: eexists; (split; [reflexivity|]); split.
  all: try (repeat (apply Forall_cons || apply Forall_nil);
            solve [exact I
                  | rewrite <- Hok; now apply Hedit ]).
  all: try discriminate.
  all: intros l' H; inversion H; subst; clear H.
  all: try (apply answer_handle_extend; intros h Hh; cbn [message] in Hh;
            rewrite <- ?Hmessage in Hh; now apply Ha).
  intros h Hh. cbn [message] in Hh. injection Hh as <-.
  eexists. unfold extend. cbn [trace].
  rewrite nth_error_app2 by lia. rewrite Nat.sub_diag. reflexivity.
Qed.

Lemma consume_edits_target w q evs l s :
  answer_handle q l s ->
  exists new,
    snd (consume w q evs l s) = extend s new
    /\ Forall (edit_targets_answer q (trace s ++ new)) new
    /\ forall l', fst (consume w q evs l s) = Ok l' ->
                  answer_handle q l' (extend s new).
Proof.
  revert l s. induction evs as [| |ev rest IH]; intros l s Ha.
  - exists []. rewrite extend_nil. split; [reflexivity|].
    split; [constructor|]. intros l' H. inversion H; subst. exact Ha.
  - exists []. rewrite extend_nil. split; [reflexivity|].
    split; [constructor|]. discriminate.
  - rewrite consume_yield.
    destruct (on_event_edits_target w q ev l s Ha) as (new1 & H1 & F1 & A1).
    destruct (on_event w q ev l s) as [[l1|e] s1]; cbn [fst snd] in *; subst s1.
    + destruct (IH l1 (extend s new1) (A1 l1 eq_refl)) as (new2 & H2 & F2 & A2).
      exists (new1 ++ new2). rewrite H2, extend_extend.
      split; [reflexivity|]. split.
      * apply Forall_app. split.
        -- eapply Forall_impl; [|exact F1]. intros c Hc.
           rewrite app_assoc. now apply edit_targets_answer_more.
        -- unfold extend in F2. cbn [trace] in F2.
           rewrite app_assoc. exact F2.
      * intros l' Hl'. rewrite <- extend_extend. now apply A2.
    + exists new1. split; [reflexivity|]. split; [exact F1|]. discriminate.
Qed.

(** X15. Every edit issued while a question is answered, threshold edit
    or final edit, is aimed at the message that was sent with the header
    of that question and was delivered: no other message is ever
    edited. *)
Theorem edits_target_the_answer_message w q pid s :
  exists new,
    snd (stream_answer w q pid s) = extend s new
    /\ Forall (edit_targets_answer q (trace s ++ new)) new.
Proof.
  rewrite stream_answer_cases.
  set (evs := chat_stream w (BOT_ID w) pid q).
  set (opened := Call (OpChatStream (BOT_ID w) pid q) true).
  assert (Ha : answer_handle q no_locals (extend s [opened])).
  { intros h Hh. discriminate. }
  destruct (consume_edits_target w q evs no_locals _ Ha) as (mid & Hm & Fm & Am).
  unfold extend in Fm at 1. cbn [trace] in Fm. rewrite <- app_assoc in Fm.
  destruct (consume w q evs no_locals (extend s [opened])) as [[l|e] s1];
    cbn [fst snd] in *; subst s1; rewrite extend_extend in *.
  2:{ exists ([opened] ++ mid). split; [reflexivity|].
      apply Forall_app. split; [repeat constructor|]. exact Fm. }
  specialize (Am l eq_refl).
  rewrite flush_cases.
  destruct (message l) as [h|] eqn:Hh.
  2:{ exists ([opened] ++ mid). split; [reflexivity|].
      apply Forall_app. split; [repeat constructor|]. exact Fm. }
  destruct (nonempty (content_buffer l)).
  2:{ exists ([opened] ++ mid). split; [reflexivity|].
      apply Forall_app. split; [repeat constructor|]. exact Fm. }
  cbv zeta. rewrite extend_extend.
  match goal with |- context [extend s (?a ++ ?t)] =>
    exists (a ++ t); split; [reflexivity|]; set (tail := t) end.
  destruct (Am h Hh) as (b & Hb). unfold extend in Hb. cbn [trace] in Hb.
  apply Forall_app. split.
  - apply Forall_app. split; [repeat constructor|].
    eapply Forall_impl; [|exact Fm]. intros c Hc.
    rewrite (app_assoc (trace s)). apply edit_targets_answer_more. exact Hc.
  - assert (He : forall ok,
              edit_targets_answer q (trace s ++ ([opened] ++ mid) ++ tail)
                (Call (OpEditText h (text_buffer l ++ content_buffer l)) ok)).
    { intros ok. unfold edit_targets_answer. cbn [call_op]. exists b.
      rewrite (app_assoc (trace s)). rewrite nth_error_app1; [exact Hb|].
      apply nth_error_Some. congruence. }
    subst tail.
    destruct (delivers w _); [destruct (returned _)|];
      repeat (apply Forall_cons || apply Forall_nil);
      solve [exact I | apply He].
Qed.
(** ** [suangua] *)

Lemma replace_one_char c new s :
  replace [c] new s = flat_map (fun x => if (x =? c)%N then new else [x]) s.
Proof.
  unfold replace. induction s as [|x s IH]; [reflexivity|].
  cbn [replace_aux startswith length Nat.sub flat_map].
  rewrite andb_true_r, N.eqb_sym. rewrite IH.
  destruct (x =? c)%N; reflexivity.
Qed.

Lemma flat_map_flat_map {A B C} (f : B -> list C) (g : A -> list B) s :
  flat_map f (flat_map g s) = flat_map (fun x => flat_map f (g x)) s.
Proof.
  induction s as [|x s IH]; [reflexivity|].
  cbn [flat_map]. now rewrite flat_map_app, IH.
Qed.

Lemma escape_step done c s :
  existsb (N.eqb c) done = false -> c <> backslash ->
  replace [c] [backslash; c]
    (flat_map (fun x => if existsb (N.eqb x) done then [backslash; x] else [x]) s)
  = flat_map (fun x => if existsb (N.eqb x) (done ++ [c])
                       then [backslash; x] else [x]) s.
Proof.
  intros Hc Hb. rewrite replace_one_char, flat_map_flat_map.
  apply flat_map_ext. intros x. rewrite existsb_app. cbn [existsb].
  rewrite orb_false_r.
  destruct (existsb (N.eqb x) done) eqn:Hx; cbn [flat_map orb app].
  - destruct (N.eqb_spec backslash c); [congruence|].
    destruct (N.eqb_spec x c) as [->|]; [|reflexivity].
    rewrite Hc in Hx. discriminate.
  - rewrite app_nil_r. destruct (N.eqb_spec x c) as [->|]; reflexivity.
Qed.

Lemma escape_fold chars :
  forall done s,
    NoDup (done ++ chars) -> ~ In backslash chars ->
    fold_left (fun result char => replace [char] [backslash; char] result) chars
      (flat_map (fun x => if existsb (N.eqb x) done then [backslash; x] else [x]) s)
    = flat_map (fun x => if existsb (N.eqb x) (done ++ chars)
                         then [backslash; x] else [x]) s.
Proof.
  induction chars as [|c chars IH]; intros done s Hnd Hb.
  - now rewrite app_nil_r.
  - cbn [fold_left]. rewrite escape_step.
    + rewrite IH.
      * now rewrite <- app_assoc.
      * now rewrite <- app_assoc.
      * intros H. apply Hb. now right.
    + apply NoDup_remove_2 in Hnd.
      destruct (existsb (N.eqb c) done) eqn:E; [|reflexivity].
      exfalso. apply Hnd. apply in_or_app. left.
      apply existsb_exists in E as (y & Hy & Hcy).
      apply N.eqb_eq in Hcy. now subst.
    + intros ->. apply Hb. now left.
Qed.

Lemma special_chars_distinct : NoDup special_chars.
Proof.
  apply (NoDup_count_occ' N.eq_dec). intros x Hx.
  vm_compute in Hx.
  repeat (destruct Hx as [<-|Hx]; [vm_compute; reflexivity|]).
  contradiction.
Qed.

Lemma flat_map_singleton {A} (s : list A) : flat_map (fun x => [x]) s = s.
Proof. induction s as [|x s IH]; [reflexivity|]. cbn. now rewrite IH. Qed.

Lemma escape_special_one_pass s : escape_special s = flat_map escape_char s.
Proof.
  assert (Hb : ~ In backslash special_chars).
  { intros H. vm_compute in H. intuition discriminate. }
  pose proof (escape_fold special_chars [] s special_chars_distinct Hb) as H.
  cbn [existsb app] in H. rewrite flat_map_singleton in H. exact H.
Qed.

Lemma suangua_loop_result f g evs result out :
  fst (suangua_loop f g evs result out)
  = if completes evs then Some (result ++ concat (fragments evs)) else None.
Proof.
  revert result out. induction evs as [| |ev rest IH]; intros result out.
  - cbn. now rewrite app_nil_r.
  - reflexivity.
  - cbn [suangua_loop completes fragments]. rewrite IH.
    destruct (completes rest); [|reflexivity].
    destruct (is_message_delta (ev_event ev)); [|reflexivity].
    cbn [concat]. now rewrite app_assoc.
Qed.

(** X16. [suangua] returns the failure notice when the stream raises,
    the nothing-received notice when the stream delivers no text, and
    otherwise the concatenation of the fragments in which every special
    character has got a backslash in front: the eighteen successive
    replacements amount to one pass over the text. *)
Theorem suangua_returns_escaped_answer w hash_str event_name question :
  let evs :=
    chat_stream w (BOT_ID w) (lit "user_" ++ hash_str question)
      (question ++ newline) in
  fst (suangua w hash_str event_name question)
  = if completes evs then
      match concat (fragments evs) with
      | [] => nothing_notice
      | answer => flat_map escape_char answer
      end
    else failure_notice.
Proof.
  cbv zeta. unfold suangua.
  set (evs := chat_stream w (BOT_ID w) (lit "user_" ++ hash_str question)
                (question ++ newline)).
  match goal with |- context [suangua_loop ?f ?g evs ?r ?o] =>
    pose proof (suangua_loop_result f g evs r o) as H;
    destruct (suangua_loop f g evs r o) as [[result|] out] end;
    cbn [fst] in H; destruct (completes evs); try discriminate;
    [|reflexivity].
  injection H as ->. cbn [app fst]. rewrite escape_special_one_pass.
  destruct (concat (fragments evs)) as [|c r]; [reflexivity|].
  cbn [flat_map]. unfold escape_char at 1.
  destruct (is_special c); reflexivity.
Qed.

Lemma escaped_specials_follow_backslash s i c :
  nth_error (flat_map escape_char s) i = Some c ->
  is_special c = true ->
  exists j, i = S j /\ nth_error (flat_map escape_char s) j = Some backslash.
Proof.
  revert i. induction s as [|a s IH]; intros i Hi Hc.
  - destruct i; discriminate.
  - cbn [flat_map] in *. unfold escape_char at 1 in Hi. unfold escape_char at 1.
    destruct (is_special a) eqn:Ha; cbn [app] in *.
    + destruct i as [|[|i]]; cbn [nth_error] in Hi.
      * injection Hi as <-. vm_compute in Hc. discriminate.
      * exists 0. auto.
      * destruct (IH i Hi Hc) as (j & -> & Hj). exists (S (S j)). auto.
    + destruct i as [|i]; cbn [nth_error] in Hi.
      * injection Hi as <-. congruence.
      * destruct (IH i Hi Hc) as (j & -> & Hj). exists (S j). auto.
Qed.

(** X17. In an answer that [suangua] returns, every special character
    stands right after a backslash. *)
Theorem suangua_specials_follow_backslash w hash_str event_name question i c :
  let evs :=
    chat_stream w (BOT_ID w) (lit "user_" ++ hash_str question)
      (question ++ newline) in
  let answer := fst (suangua w hash_str event_name question) in
  completes evs = true ->
  concat (fragments evs) <> [] ->
  nth_error answer i = Some c ->
  is_special c = true ->
  exists j, i = S j /\ nth_error answer j = Some backslash.
Proof.
  cbv zeta. intros Hc Hne. unfold suangua.
  match goal with |- context [suangua_loop ?f ?g ?evs ?r ?o] =>
    pose proof (suangua_loop_result f g evs r o) as H;
    destruct (suangua_loop f g evs r o) as [[result|] out] end;
    cbn [fst] in H; rewrite Hc in H; [|discriminate].
  injection H as ->. cbn [app fst]. rewrite escape_special_one_pass.
  destruct (concat (fragments _)) as [|a r] eqn:E; [congruence|].
  assert (Hn : nonempty (flat_map escape_char (a :: r)) = true).
  { cbn [flat_map]. unfold escape_char at 1.
    destruct (is_special a); reflexivity. }
  rewrite Hn. apply escaped_specials_follow_backslash.
Qed.

Lemma suangua_specials_follow_backslash_witness :
  let w := sample_world (stream_of [delta (lit "乾_坤."); chat_completed 9]) 3 0 [] in
  let hash_str := fun _ : pystr => lit "7" in
  let event_name := fun _ : ChatEventType => lit "event" in
  let answer := fst (suangua w hash_str event_name (lit "q")) in
  exists j, 2 = S j /\ nth_error answer j = Some backslash.
Proof.
  apply (suangua_specials_follow_backslash
           (sample_world (stream_of [delta (lit "乾_坤."); chat_completed 9]) 3 0 [])
           (fun _ => lit "7") (fun _ => lit "event") (lit "q") 2 95%N).
  - vm_compute. reflexivity.
  - vm_compute. discriminate.
  - vm_compute. reflexivity.
  - vm_compute. reflexivity.
Defined.

(** ** Who opens a question *)

Lemma profile_keeps_flag w u s :
  waiting_for_question (ctx (snd (profile w u s)))
  = waiting_for_question (ctx s).
Proof.
  unfold profile, to_beijing_day, initialize_user_data, subscript, full_name,
    reply_text, transport, backend, log_error, record, get_ctx, put_ctx,
    raise, bind, ret.
  cbn [ctx trace].
  run_handler; reflexivity.
Qed.

Lemma no_start_no_question xs :
  Forall (fun x : world * inbound * update => snd (fst x) <> START_COMMAND) xs ->
  truthy (waiting_for_question (session_after xs)) = false.
Proof.
  unfold session_after.
  assert (H : forall c,
            truthy (waiting_for_question c) = false ->
            Forall (fun x : world * inbound * update =>
                      snd (fst x) <> START_COMMAND) xs ->
            truthy (waiting_for_question (fold_left after_update xs c)) = false).
  { induction xs as [|[[w i] u] xs IH]; intros c Hc Hf; [exact Hc|].
    inversion Hf as [|? ? Hi Hf']; subst. cbn [fst snd] in Hi.
    cbn [fold_left]. apply IH; [|exact Hf'].
    unfold after_update, dispatch. destruct i; [congruence| |].
    - now rewrite profile_keeps_flag.
    - now rewrite (handle_message_idle w u (State c []) Hc). }
  intros Hf. now apply H.
Qed.

(** X18. Only [/start] opens a question.  In a session that has received
    profile commands and text messages but no [/start], a text message is
    answered with the instruction to send [/start] and nothing else: no
    backend call, no change of the context. *)
Theorem only_start_opens_a_question xs w u :
  Forall (fun x : world * inbound * update => snd (fst x) <> START_COMMAND) xs ->
  handle_message w u (State (session_after xs) [])
  = (if delivers w 0 then Ok tt else Raise TransportError,
     State (session_after xs) [Call (OpReplyText start_first) (delivers w 0)]).
Proof.
  intros Hf. pose proof (no_start_no_question xs Hf) as Hw.
  now rewrite (handle_message_idle w u (State (session_after xs) []) Hw).
Qed.

Lemma only_start_opens_a_question_witness :
  let w := sample_world Exhausted 3 0 [] in
  let xs := [(w, PROFILE_COMMAND, sample_update); (w, TEXT_MESSAGE, sample_update)] in
  handle_message w sample_update (State (session_after xs) [])
  = (if delivers w 0 then Ok tt else Raise TransportError,
     State (session_after xs) [Call (OpReplyText start_first) (delivers w 0)]).
Proof.
  apply (only_start_opens_a_question
           [(sample_world Exhausted 3 0 [], PROFILE_COMMAND, sample_update);
            (sample_world Exhausted 3 0 [], TEXT_MESSAGE, sample_update)]
           (sample_world Exhausted 3 0 []) sample_update).
  repeat constructor; discriminate.
Defined.

(** X19. A project is created only for a session that awaited a question
    and whose remaining count is positive: in every run of
    [handle_message] that calls [create_project], the session was
    awaiting, is idle afterwards, and its cached [daily_count] is
    positive. *)
Theorem project_only_with_positive_count w u c uid question ok :
  let run := handle_message w u (State c []) in
  In (Call (OpCreateProject uid question) ok) (trace (snd run)) ->
  truthy (waiting_for_question c) = true
  /\ waiting_for_question (ctx (snd run)) = Some false
  /\ exists n, daily_count (ctx (snd run)) = Some n /\ (0 < n)%Z.
Proof.
  cbv zeta. unfold handle_message.
  pose proof (answer_question_keeps_ctx w (text u)) as Haq.
  set (aq := answer_question w (text u)) in *.
  unfold initialize_user_data, subscript, set_waiting, full_name,
    reply_text, transport, backend, log_error, record, get_ctx, put_ctx,
    raise, bind, ret.
  cbn [ctx trace].
  run_message_handler aq; rewrite ?Haq;
    cbn [snd ctx trace app In daily_count waiting_for_question];
    intros Hin;
    try (exfalso; intuition discriminate);
    (split; [reflexivity|]); (split; [reflexivity|]);
    eexists; (split; [first [reflexivity | eassumption]|]);
    apply Z.leb_gt; assumption.
Qed.

Lemma project_only_with_positive_count_witness :
  let w := sample_world Exhausted 3 1 [] in
  let run := handle_message w sample_update (State awaiting_ctx []) in
  truthy (waiting_for_question awaiting_ctx) = true
  /\ waiting_for_question (ctx (snd run)) = Some false
  /\ exists n, daily_count (ctx (snd run)) = Some n /\ (0 < n)%Z.
Proof.
  apply (project_only_with_positive_count (sample_world Exhausted 3 1 [])
           sample_update awaiting_ctx (lit "u1") (text sample_update) true).
  vm_compute. auto.
Defined.

(** ** Streams at the edges *)

Lemma consume_without_fragments w q evs l s :
  fragments evs = [] ->
  consume w q evs l s
  = (if completes evs then Ok l else Raise StreamError, s).
Proof.
  induction evs as [| |ev rest IH]; intros Hf; [reflexivity..|].
  cbn [fragments] in Hf. rewrite consume_yield, completes_yield.
  destruct (is_message_delta (ev_event ev)) eqn:Hd; [discriminate|].
  unfold on_event. rewrite Hd. now apply IH.
Qed.

(** X20. A stream that delivers no message fragment leaves the user
    without any message: the handler opens the stream and, when the
    stream ends normally, sends nothing and updates nothing; when the
    stream raises, the generic failure reply is all there is. *)
Theorem answer_without_fragments_is_silent w q pid s :
  let evs := chat_stream w (BOT_ID w) pid q in
  let opened := Call (OpChatStream (BOT_ID w) pid q) true in
  let ok := delivers w (length (trace s) + 2) in
  fragments evs = [] ->
  answer_question w q pid s
  = if completes evs then (Ok tt, extend s [opened])
    else (if ok then Ok tt else Raise TransportError,
          extend s [opened; Call OpLogError true;
                    Call (OpReplyText failure_notice) ok]).
Proof.
  cbv zeta. intros Hf.
  rewrite answer_question_cases, stream_answer_cases.
  rewrite (consume_without_fragments _ _ _ _ _ Hf).
  destruct (completes _).
  - rewrite flush_cases. reflexivity.
  - cbv zeta. rewrite extend_extend. cbn [extend trace app].
    rewrite length_app. cbn [length].
    replace (S (length (trace s) + 1)) with (length (trace s) + 2) by lia.
    reflexivity.
Qed.

Lemma answer_without_fragments_witness :
  let w := sample_world (stream_of [chat_completed 12]) 3 0 [] in
  let s := State awaiting_ctx [] in
  let evs := chat_stream w (BOT_ID w) (lit "p1") (lit "q") in
  let opened := Call (OpChatStream (BOT_ID w) (lit "p1") (lit "q")) true in
  let ok := delivers w (length (trace s) + 2) in
  answer_question w (lit "q") (lit "p1") s
  = if completes evs then (Ok tt, extend s [opened])
    else (if ok then Ok tt else Raise TransportError,
          extend s [opened; Call OpLogError true;
                    Call (OpReplyText failure_notice) ok]).
Proof.
  apply (answer_without_fragments_is_silent
           (sample_world (stream_of [chat_completed 12]) 3 0 [])
           (lit "q") (lit "p1") (State awaiting_ctx [])).
  reflexivity.
Defined.

(** X21. An answer of two plain fragments that together reach the
    threshold is shown but never persisted: the second fragment triggers
    the threshold edit, which empties [content_buffer], so the end of the
    stream finds nothing to flush and [update_project_messages] is not
    called. *)
Theorem two_fragment_answer_is_not_persisted w q pid s f1 f2 :
  chat_stream w (BOT_ID w) pid q = stream_of [delta f1; delta f2] ->
  is_plain f1 = true -> is_plain f2 = true ->
  BUFFER_SIZE <= length (f1 ++ f2) ->
  delivers w (S (length (trace s))) = true ->
  let h := S (length (trace s)) in
  let ok := delivers w (S h) in
  let shown :=
    replace br_marker newline (answer_text q f1 ++ f1 ++ f2) in
  stream_answer w q pid s
  = (Ok tt,
     extend s
       (Call (OpChatStream (BOT_ID w) pid q) true
        :: Call (OpReplyText (answer_text q f1)) true
        :: Call (OpEditText h shown) ok
        :: if ok then [] else [Call OpLogWarning true])).
Proof.
  intros Hs Hp1 Hp2 Hlen Hd h ok shown.
  unfold is_plain in Hp1, Hp2.
  apply andb_true_iff in Hp1 as [Hi1 Hs1].
  apply andb_true_iff in Hp2 as [Hi2 Hs2].
  apply negb_true_iff in Hi1, Hs1, Hi2, Hs2.
  rewrite stream_answer_cases, Hs. cbn [stream_of].
  set (opened := Call (OpChatStream (BOT_ID w) pid q) true).
  assert (Hl0 : length (trace (extend s [opened])) = h).
  { unfold extend. cbn [trace]. rewrite length_app. cbn [length]. lia. }
  rewrite consume_yield, on_event_cases. cbv zeta.
  cbn [delta ev_event ev_content is_message_delta no_locals message
       content_buffer messages text_buffer app].
  rewrite Hi1, Hs1, Hl0.
  fold h in Hd. rewrite Hd.
  rewrite consume_yield, on_event_cases. cbv zeta.
  cbn [delta ev_event ev_content is_message_delta message content_buffer
       messages text_buffer].
  rewrite Hi2, Hs2.
  apply Nat.leb_le in Hlen. rewrite Hlen.
  rewrite !extend_extend.
  assert (Hl1 : length (trace (extend s ([opened]
                  ++ [Call (OpReplyText (answer_text q f1)) true]))) = S h).
  { unfold extend. cbn [trace]. rewrite !length_app. cbn [length]. lia. }
  rewrite Hl1. fold ok. fold shown.
  cbn [consume]. unfold ret. rewrite flush_cases.
  cbn [message content_buffer nonempty]. reflexivity.
Qed.

Lemma two_fragment_answer_witness :
  let w :=
    sample_world (stream_of [delta (lit "乾为天。"); delta (repeat 97%N 40)])
      3 0 [] in
  let s := State awaiting_ctx [] in
  let q := lit "q" in
  let f1 := lit "乾为天。" in
  let f2 := repeat 97%N 40 in
  let h := S (length (trace s)) in
  let ok := delivers w (S h) in
  let shown :=
    replace br_marker newline (answer_text q f1 ++ f1 ++ f2) in
  stream_answer w q (lit "p1") s
  = (Ok tt,
     extend s
       (Call (OpChatStream (BOT_ID w) (lit "p1") q) true
        :: Call (OpReplyText (answer_text q f1)) true
        :: Call (OpEditText h shown) ok
        :: if ok then [] else [Call OpLogWarning true])).
Proof.
  apply (two_fragment_answer_is_not_persisted
           (sample_world
              (stream_of [delta (lit "乾为天。"); delta (repeat 97%N 40)]) 3 0 [])
           (lit "q") (lit "p1") (State awaiting_ctx [])
           (lit "乾为天。") (repeat 97%N 40)).
  - reflexivity.
  - vm_compute. reflexivity.
  - vm_compute. reflexivity.
  - vm_compute. lia.
  - reflexivity.
Defined.
